(** * The teacher dashboard of [pages/teacher.py]

    A shallow embedding of the Streamlit page: the script is a sequential
    fetch -> derive -> filter -> render -> export pipeline over a list of
    submission records.  Python text is modelled as [string]; a character of
    the model is one UTF-8 code unit, so [encode('utf-8-sig')] only prepends
    the byte order mark.  The regular-expression engine behind
    [Series.str.contains] and the timestamp parser behind [pd.to_datetime]
    are external libraries: the page is written over an interface [Library]
    and a model of a fragment of Python's [re] instantiates it. *)

From Stdlib Require Import String Ascii List ZArith Lia Bool Arith Sorted.
From Stdlib Require Import Numbers.DecimalString.
From Stdlib Require Import Floats.SpecFloat.
Import ListNotations.
Open Scope string_scope.

(** ** Python values, exceptions and the run of a script *)

(** A submission record as [response.data] delivers it: a JSON object whose
    values are text, keys in the order the store sent them.  [lookup] reads
    the first binding of a key. *)
Definition record := list (string * string).

(** A cell of a DataFrame column: a string, or the missing value pandas puts
    where a record has no such key. *)
Inductive cell :=
| Str (s : string)
| NaN.

Definition cell_eq_dec (a b : cell) : {a = b} + {a <> b}.
Proof. decide equality. apply string_dec. Defined.

Inductive exn :=
| KeyError (key : string)
| TypeError
| ValueError
| ZeroDivisionError
| re_error
| Unmodelled
| RerunException.

Inductive result (A : Type) :=
| Ok (a : A)
| Raise (e : exn).
Arguments Ok {A} a.
Arguments Raise {A} e.

Inductive container :=
| sidebar
| column (i : nat)
| expander (label : string).

Inductive element :=
| title (body : string)
| write (body : string)
| button (label : string)
| info (body : cell)
| success (body : cell)
| warning (body : cell)
| columns_ (n : nat)
| metric (label value : string)
| divider
| subheader (body : string)
| text_input (label value : string)
| dataframe (cols : list string) (data : list (list cell))
| markdown (body : string)
| download_button (label data file_name mime : string).

Inductive warning_category :=
| RuntimeWarning
| UserWarning.

(** What a run of the script leaves behind, in order: elements drawn on the
    page or in a container, [with] blocks entered and left, warnings issued. *)
Inductive event :=
| Draw (e : element)
| DrawIn (c : container) (e : element)
| With (c : container)
| EndWith
| Warn (w : warning_category).

(** A run: the events so far and the value or the exception that ended it. *)
Definition run (A : Type) : Type := (list event * result A)%type.

Definition ret {A} (a : A) : run A := ([], Ok a).
Definition raise {A} (e : exn) : run A := ([], Raise e).
Definition lift {A} (r : result A) : run A := ([], r).
Definition emit (e : event) : run unit := ([e], Ok tt).

Definition bind {A B} (m : run A) (k : A -> run B) : run B :=
  match m with
  | (l, Ok a) => let (l', r) := k a in ((l ++ l')%list, r)
  | (l, Raise e) => (l, Raise e)
  end.

Definition events {A} (m : run A) : list event := fst m.
Definition outcome {A} (m : run A) : result A := snd m.

Declare Scope run_scope.
Delimit Scope run_scope with run.
Notation "x <- m ;; k" := (bind m (fun x => k))
  (at level 61, m at next level, right associativity) : run_scope.
Notation "m ;; k" := (bind m (fun _ => k))
  (at level 61, right associativity) : run_scope.
Open Scope run_scope.

Definition rbind {A B} (r : result A) (k : A -> result B) : result B :=
  match r with
  | Ok a => k a
  | Raise e => Raise e
  end.

Fixpoint mapM {A B} (f : A -> result B) (l : list A) : result (list B) :=
  match l with
  | [] => Ok []
  | x :: l' =>
      rbind (f x) (fun y => rbind (mapM f l') (fun ys => Ok (y :: ys)))
  end.

Fixpoint for_each {A} (l : list A) (body : A -> run unit) : run unit :=
  match l with
  | [] => ret tt
  | x :: l' => body x ;; for_each l' body
  end.

(** ** Text *)

(** [sub in s] *)
Fixpoint contains (sub s : string) : bool :=
  prefix sub s ||
  match s with
  | EmptyString => false
  | String _ s' => contains sub s'
  end.

(** [str(n)] of a non-negative integer *)
Definition str_nat (n : nat) : string := NilEmpty.string_of_uint (Nat.to_uint n).
Definition str_Z (z : Z) : string := str_nat (Z.to_nat z).

(** [str(v)] of a cell inside an f-string *)
Definition py_str (v : cell) : string :=
  match v with
  | Str s => s
  | NaN => "nan"
  end.

(** ** float64 *)

Definition prec : Z := 53.
Definition emax : Z := 1024.
Definition float64 := spec_float.

(** An integer converted to float64, round to nearest even. *)
Definition float_of_Z (z : Z) : float64 := binary_normalize prec emax z 0 false.
Definition fdiv (x y : float64) : float64 := SFdiv prec emax x y.
Definition fmul (x y : float64) : float64 := SFmul prec emax x y.

(** The integer nearest to [m * 2^e * 10], ties to even: the digits the
    format specification [.1f] prints for the exact binary value. *)
Definition tenths (m e : Z) : Z :=
  if (0 <=? e)%Z then (m * 10 * 2 ^ e)%Z
  else
    let den := (2 ^ (- e))%Z in
    let q := ((m * 10) / den)%Z in
    let r := ((m * 10) mod den)%Z in
    if (den <? 2 * r)%Z then (q + 1)%Z
    else if (2 * r =? den)%Z then (if Z.odd q then q + 1 else q)%Z
    else q.

(** [f"{x:.1f}"] *)
Definition format_1f (x : float64) : string :=
  match x with
  | S754_zero s => if s then "-0.0" else "0.0"
  | S754_infinity s => if s then "-inf" else "inf"
  | S754_nan => "nan"
  | S754_finite s m e =>
      let t := tenths (Zpos m) e in
      (if s then "-" else "") ++ str_Z (t / 10) ++ "." ++ str_Z (t mod 10)
  end.

(** [(q1_correct_count / total_submissions)]: the left operand is a numpy
    integer when the summed mask had no missing value, a Python integer
    otherwise.  numpy warns on a zero divisor and goes on with inf or nan;
    Python raises.  Both operands are counts of rows, converted to float64
    before the division (exactly, below 2^53). *)
Definition true_divide (numpy_scalar : bool) (a b : Z) : run float64 :=
  if (b =? 0)%Z then
    if numpy_scalar
    then emit (Warn RuntimeWarning) ;; ret (fdiv (float_of_Z a) (float_of_Z b))
    else raise ZeroDivisionError
  else ret (fdiv (float_of_Z a) (float_of_Z b)).

(** ** DataFrame *)

Fixpoint lookup (key : string) (r : record) : cell :=
  match r with
  | [] => NaN
  | (k, v) :: r' => if String.eqb key k then Str v else lookup key r'
  end.

(** A frame keeps its column labels and, per row, the record the row was
    built from; the cell of a row under a label is [lookup]. *)
Record DataFrame := { columns : list string; rows : list record }.

Definition has_key (key : string) (keys : list string) : bool :=
  existsb (String.eqb key) keys.

Definition add_key (cols : list string) (k : string) : list string :=
  if has_key k cols then cols else (cols ++ [k])%list.

(** [pd.DataFrame(raw_data)] of a list of dicts: the columns are the keys in
    the order they first appear. *)
Definition pd_DataFrame (raw_data : list record) : DataFrame :=
  {| columns := fold_left (fun cols r => fold_left add_key (map fst r) cols) raw_data [];
     rows := raw_data |}.

(** [len(df)] *)
Definition len (df : DataFrame) : nat := List.length (rows df).

(** [df[key]] *)
Definition getitem (df : DataFrame) (key : string) : result (list cell) :=
  if has_key key (columns df) then Ok (map (lookup key) (rows df))
  else Raise (KeyError key).

(** [row[key]] of a row handed out by [df.iterrows()] *)
Definition row_getitem (df : DataFrame) (row : record) (key : string) : result cell :=
  if has_key key (columns df) then Ok (lookup key row) else Raise (KeyError key).

(** [df[keys]] with a list of labels *)
Definition getitem_cols (df : DataFrame) (keys : list string) : result DataFrame :=
  match find (fun k => negb (has_key k (columns df))) keys with
  | Some k => Raise (KeyError k)
  | None => Ok {| columns := keys; rows := rows df |}
  end.

(** The cells of a frame, row by row, in column order. *)
Definition values (df : DataFrame) : list (list cell) :=
  map (fun r => map (fun c => lookup c r) (columns df)) (rows df).

(** [Series.unique()]: first occurrences, in order. *)
Fixpoint unique_from (seen : list cell) (s : list cell) : list cell :=
  match s with
  | [] => []
  | x :: s' =>
      if in_dec cell_eq_dec x seen then unique_from seen s'
      else x :: unique_from (x :: seen) s'
  end.
Definition unique (s : list cell) : list cell := unique_from [] s.

(** [Series.str.startswith(pat)]: missing stays missing. *)
Definition str_startswith (pat : string) (s : list cell) : list (option bool) :=
  map (fun c => match c with Str x => Some (prefix pat x) | NaN => None end) s.

(** [Series.sum()] of a boolean mask, missing values skipped. *)
Fixpoint sum (mask : list (option bool)) : Z :=
  match mask with
  | [] => 0
  | Some true :: m => 1 + sum m
  | _ :: m => sum m
  end.

Definition has_na (mask : list (option bool)) : bool :=
  existsb (fun b => match b with None => true | Some _ => false end) mask.

Fixpoint take_where {A} (l : list A) (mask : list bool) : list A :=
  match l, mask with
  | x :: l', b :: m' => if b then x :: take_where l' m' else take_where l' m'
  | _, _ => []
  end.

(** [df[mask]] with a boolean Series over the same index: a mask holding a
    missing value is refused. *)
Definition getitem_mask (df : DataFrame) (mask : list (option bool)) : result DataFrame :=
  if has_na mask then Raise ValueError
  else Ok {| columns := columns df;
             rows := take_where (rows df)
                       (map (fun b => match b with Some b => b | None => false end) mask) |}.

(** ** The external libraries *)

(** Python's [re] ([compile], the number of groups of a pattern, [search]
    succeeding) and the conversion of one timestamp cell done by
    [pd.to_datetime(...).dt.strftime('%Y-%m-%d %H:%M')]. *)
Record Library := {
  regex : Type;
  re_compile : string -> result regex;
  re_groups : regex -> nat;
  re_search : regex -> string -> bool;
  strftime_minute : string -> result string }.

(** ** Export *)

Definition delimiter : ascii := ","%char.
Definition quotechar : ascii := "034"%char.
Definition LF : ascii := "010"%char.
Definition CR : ascii := "013"%char.
(** [os.linesep] of the POSIX host the page is served from. *)
Definition lineterminator : string := String LF "".
Definition BOM : string := String "239" (String "187" (String "191" "")).

Fixpoint any_char (p : ascii -> bool) (s : string) : bool :=
  match s with
  | EmptyString => false
  | String c s' => p c || any_char p s'
  end.

(** [csv.QUOTE_MINIMAL] as CPython 3.11 has it: a field is quoted when it
    holds the delimiter, the quote character or a character of the line
    terminator; a carriage return alone does not quote it. *)
Definition special (c : ascii) : bool :=
  Ascii.eqb c delimiter || Ascii.eqb c quotechar || Ascii.eqb c LF.

Fixpoint double_quotes (s : string) : string :=
  match s with
  | EmptyString => EmptyString
  | String c s' =>
      if Ascii.eqb c quotechar then String c (String c (double_quotes s'))
      else String c (double_quotes s')
  end.

Definition write_field (f : string) : string :=
  if any_char special f
  then String quotechar (double_quotes f ++ String quotechar "")
  else f.

Fixpoint join_fields (fs : list string) : string :=
  match fs with
  | [] => ""
  | [f] => write_field f
  | f :: fs' => write_field f ++ String delimiter (join_fields fs')
  end.

(** [csv.writer.writerow]: a row made of one empty field is written quoted. *)
Definition writerow (fs : list string) : string :=
  match fs with
  | [EmptyString] => String quotechar (String quotechar lineterminator)
  | _ => join_fields fs ++ lineterminator
  end.

(** [na_rep]: a missing cell is written as the empty field. *)
Definition na_rep (v : cell) : string :=
  match v with
  | Str s => s
  | NaN => ""
  end.

(** [df.to_csv(index=False)] *)
Definition to_csv (df : DataFrame) : string :=
  writerow (columns df) ++
  String.concat "" (map (fun r => writerow (map na_rep r)) (values df)).

(** [convert_df(df)]: [df.to_csv(index=False).encode('utf-8-sig')] *)
Definition convert_df (df : DataFrame) : string := BOM ++ to_csv df.

(** ** Reading the export back *)

Inductive char_kind :=
| Delimiter
| Quote
| LineFeed
| CarriageReturn
| Other.

Definition kind (c : ascii) : char_kind :=
  if Ascii.eqb c delimiter then Delimiter
  else if Ascii.eqb c quotechar then Quote
  else if Ascii.eqb c LF then LineFeed
  else if Ascii.eqb c CR then CarriageReturn
  else Other.

Inductive parser_state :=
| START_RECORD
| START_FIELD
| IN_FIELD
| IN_QUOTED_FIELD
| QUOTE_IN_QUOTED_FIELD
| EAT_LF.

Definition snoc (s : string) (c : ascii) : string := s ++ String c "".

(** Modelled from the spec: the parser of the exported file is not part of
    the repository; "parse the exported file" is read as the state machine
    of Python's [csv.reader] in its default dialect (comma, double quote
    doubled inside a quoted field), fed the text split at line ends: a line
    feed, a carriage return or both end a record outside quotes, and an
    empty line is an empty record. *)
Fixpoint reader_from (st : parser_state) (field : string) (fields : list string)
  (input : string) : list (list string) :=
  match input with
  | EmptyString =>
      match st with
      | START_RECORD | EAT_LF => []
      | _ => [(fields ++ [field])%list]
      end
  | String c rest =>
      match st, kind c with
      | EAT_LF, LineFeed => reader_from START_RECORD "" [] rest
      | (START_RECORD | EAT_LF), CarriageReturn => [] :: reader_from EAT_LF "" [] rest
      | START_RECORD, LineFeed => [] :: reader_from START_RECORD "" [] rest
      | (START_RECORD | EAT_LF | START_FIELD), Quote =>
          reader_from IN_QUOTED_FIELD "" fields rest
      | (START_RECORD | EAT_LF | START_FIELD), Delimiter =>
          reader_from START_FIELD "" (fields ++ [""])%list rest
      | (START_RECORD | EAT_LF | START_FIELD), Other =>
          reader_from IN_FIELD (String c "") fields rest
      | START_FIELD, LineFeed =>
          (fields ++ [""])%list :: reader_from START_RECORD "" [] rest
      | START_FIELD, CarriageReturn =>
          (fields ++ [""])%list :: reader_from EAT_LF "" [] rest
      | (IN_FIELD | QUOTE_IN_QUOTED_FIELD), Delimiter =>
          reader_from START_FIELD "" (fields ++ [field])%list rest
      | (IN_FIELD | QUOTE_IN_QUOTED_FIELD), LineFeed =>
          (fields ++ [field])%list :: reader_from START_RECORD "" [] rest
      | (IN_FIELD | QUOTE_IN_QUOTED_FIELD), CarriageReturn =>
          (fields ++ [field])%list :: reader_from EAT_LF "" [] rest
      | IN_FIELD, (Quote | Other) => reader_from IN_FIELD (snoc field c) fields rest
      | IN_QUOTED_FIELD, Quote => reader_from QUOTE_IN_QUOTED_FIELD field fields rest
      | IN_QUOTED_FIELD, _ => reader_from IN_QUOTED_FIELD (snoc field c) fields rest
      | QUOTE_IN_QUOTED_FIELD, Quote =>
          reader_from IN_QUOTED_FIELD (snoc field c) fields rest
      | QUOTE_IN_QUOTED_FIELD, Other => reader_from IN_FIELD (snoc field c) fields rest
      end
  end.

Definition csv_reader (text : string) : list (list string) :=
  reader_from START_RECORD "" [] text.

(** [bytes.decode('utf-8-sig')]: a leading byte order mark is dropped. *)
Definition decode_utf8_sig (data : string) : string :=
  if prefix BOM data then substring 3 (String.length data - 3) data else data.

(** The exported file read back: the header row and the records. *)
Definition read_export (data : string) : list (list string) :=
  csv_reader (decode_utf8_sig data).

(** ** The page *)

Record session := {
  refresh_clicked : bool;          (* st.button(...) *)
  response_data : list record;     (* fetch_data() *)
  search_id : string;              (* st.text_input(...) *)
  now : string }.                  (* pd.Timestamp.now().strftime('%Y%m%d_%H%M') *)

Definition display_cols : list string :=
  ["student_id"; "created_at"; "answer_1"; "feedback_1";
   "answer_2"; "feedback_2"; "answer_3"; "feedback_3"].

Definition draw (e : element) : run unit := emit (Draw e).
Definition draw_in (c : container) (e : element) : run unit := emit (DrawIn c e).
Definition with_ (c : container) (body : run unit) : run unit :=
  emit (With c) ;; body ;; emit EndWith.

(** [x in v] for a cell [v]: a missing value is a float, not iterable. *)
Definition py_in (x : string) (v : cell) : result bool :=
  match v with
  | Str s => Ok (contains x s)
  | NaN => Raise TypeError
  end.

(** [st.success(v) if "O:" in v else st.warning(v)]: the call the
    conditional expression makes. *)
Definition feedback_box (v : cell) : run unit :=
  b <- lift (py_in "O:" v) ;;
  if b then draw (success v) else draw (warning v).

Fixpoint set_value (key : string) (f : string -> result string) (r : record)
  : result record :=
  match r with
  | [] => Ok []
  | (k, v) :: r' =>
      if String.eqb key k then rbind (f v) (fun v' => Ok ((k, v') :: r'))
      else rbind (set_value key f r') (fun r'' => Ok ((k, v) :: r''))
  end.

(** Section 5 of the script: the three summary figures. *)
Definition total_students (df : DataFrame) : result nat :=
  rbind (getitem df "student_id") (fun s => Ok (List.length (unique s))).

Definition total_submissions (df : DataFrame) : nat := len df.

Definition q1_correct (df : DataFrame) : result (list (option bool)) :=
  rbind (getitem df "feedback_1") (fun s => Ok (str_startswith "O:" s)).

Definition correct_rate (df : DataFrame) : run float64 :=
  mask <- lift (q1_correct df) ;;
  let q1_correct_count := sum mask in
  q <- true_divide (negb (has_na mask)) q1_correct_count
         (Z.of_nat (total_submissions df)) ;;
  ret (fmul q (float_of_Z 100)).

Definition summary (df : DataFrame) : run unit :=
  total_students <- lift (total_students df) ;;
  let total_submissions := total_submissions df in
  correct_rate <- correct_rate df ;;
  draw (columns_ 3) ;;
  draw_in (column 1) (metric "참여 학생 수" (str_nat total_students ++ "명")) ;;
  draw_in (column 2) (metric "총 제출 건수" (str_nat total_submissions ++ "건")) ;;
  draw_in (column 3) (metric "문항1 정답률" (format_1f correct_rate ++ "%")).

(** Section 8: one expander per row of the filtered frame. *)
Definition detail (df : DataFrame) (row : record) : run unit :=
  student_id <- lift (row_getitem df row "student_id") ;;
  created_at <- lift (row_getitem df row "created_at") ;;
  with_ (expander ("[" ++ py_str student_id ++ "] 제출 시간: " ++ py_str created_at))
    (draw (columns_ 2) ;;
     with_ (column 1)
       (draw (markdown "**[문항 1]**") ;;
        a1 <- lift (row_getitem df row "answer_1") ;; draw (info a1) ;;
        draw (markdown "**[문항 2]**") ;;
        a2 <- lift (row_getitem df row "answer_2") ;; draw (info a2) ;;
        draw (markdown "**[문항 3]**") ;;
        a3 <- lift (row_getitem df row "answer_3") ;; draw (info a3)) ;;
     with_ (column 2)
       (draw (markdown "**[AI 피드백 1]**") ;;
        f1 <- lift (row_getitem df row "feedback_1") ;; feedback_box f1 ;;
        draw (markdown "**[AI 피드백 2]**") ;;
        f2 <- lift (row_getitem df row "feedback_2") ;; feedback_box f2 ;;
        draw (markdown "**[AI 피드백 3]**") ;;
        f3 <- lift (row_getitem df row "feedback_3") ;; feedback_box f3)).

(** Section 9: the download. *)
Definition export (df : DataFrame) (now : string) : run unit :=
  draw divider ;;
  draw (subheader "💾 데이터 내보내기") ;;
  let csv := convert_df df in
  draw (download_button "CSV 파일로 다운로드 (엑셀 호환)" csv
          ("submissions_" ++ now ++ ".csv") "text/csv").

Section Page.

Variable py : Library.

(** [df['created_at'] = pd.to_datetime(df['created_at']).dt.strftime(...)] *)
Definition reformat_created_at (df : DataFrame) : result DataFrame :=
  rbind (getitem df "created_at") (fun _ =>
  rbind (mapM (set_value "created_at" (strftime_minute py)) (rows df)) (fun rs =>
  Ok {| columns := columns df; rows := rs |})).

(** [Series.str.contains(pat)]: [pat] is a regular expression. *)
Definition str_contains (pat : string) (s : list cell) : run (list (option bool)) :=
  r <- lift (re_compile py pat) ;;
  (if (0 <? re_groups py r)%nat then emit (Warn UserWarning) else ret tt) ;;
  ret (map (fun c => match c with
                     | Str x => Some (re_search py r x)
                     | NaN => None
                     end) s).

(** Section 6: the filter. *)
Definition filtered_df (df : DataFrame) (search_id : string) : run DataFrame :=
  if String.eqb search_id "" then ret df
  else
    s <- lift (getitem df "student_id") ;;
    mask <- str_contains search_id s ;;
    lift (getitem_mask df mask).

(** The [else] branch of the script. *)
Definition dashboard (raw_data : list record) (search_id now : string) : run unit :=
  df <- lift (reformat_created_at (pd_DataFrame raw_data)) ;;
  summary df ;;
  draw divider ;;
  draw (subheader "🔍 상세 답안 조회") ;;
  draw (text_input "학번으로 검색" search_id) ;;
  filtered_df <- filtered_df df search_id ;;
  table <- lift (getitem_cols filtered_df display_cols) ;;
  draw (dataframe (columns table) (values table)) ;;
  draw (subheader "📝 학생별 심층 확인") ;;
  for_each (rows filtered_df) (detail filtered_df) ;;
  export df now.

Definition teacher_page (s : session) : run unit :=
  draw (title "📊 서술형 평가 교사용 대시보드") ;;
  draw (write "학생들이 제출한 답안과 AI 피드백을 실시간으로 확인합니다.") ;;
  draw (button "데이터 새로고침 🔄") ;;
  (if refresh_clicked s then raise RerunException else ret tt) ;;
  let raw_data := response_data s in
  match raw_data with
  | [] => draw (info (Str "아직 제출된 답안이 없습니다."))
  | _ => dashboard raw_data (search_id s) (now s)
  end ;;
  draw_in sidebar (markdown "### Dashboard Info") ;;
  draw_in sidebar (info (Str "이 대시보드는 Supabase 실시간 DB와 연동되어 있습니다. 학생이 제출 버튼을 누르면 즉시 반영됩니다.")).

End Page.

(** ** A model of the libraries *)

(** A fragment of Python's [re]: literal characters, [.], and a
    metacharacter made literal by a backslash.  A pattern that uses anything
    else is outside the fragment and answered with [Unmodelled]. *)
Module re.

Inductive atom :=
| Lit (c : ascii)
| Dot.

Definition pattern := list atom.

Definition metachar (c : ascii) : bool := any_char (Ascii.eqb c) ".^$*+?{}[]\|()".

Fixpoint compile (p : string) : result pattern :=
  match p with
  | EmptyString => Ok []
  | String c p' =>
      if Ascii.eqb c "."%char then rbind (compile p') (fun r => Ok (Dot :: r))
      else if Ascii.eqb c "\"%char then
        match p' with
        | EmptyString => Raise re_error
        | String d p'' =>
            if metachar d then rbind (compile p'') (fun r => Ok (Lit d :: r))
            else Raise Unmodelled
        end
      else if metachar c then Raise Unmodelled
      else rbind (compile p') (fun r => Ok (Lit c :: r))
  end.

(** The number of code units of the character a leading unit starts; 0 for
    a continuation unit. *)
Definition utf8_width (c : ascii) : nat :=
  let n := nat_of_ascii c in
  if (n <? 128)%nat then 1
  else if (n <? 192)%nat then 0
  else if (n <? 224)%nat then 2
  else if (n <? 240)%nat then 3
  else 4.

Fixpoint drop (n : nat) (s : string) : option string :=
  match n, s with
  | O, _ => Some s
  | S n', String _ s' => drop n' s'
  | S _, EmptyString => None
  end.

(** [.]: one character other than a line feed. *)
Definition any_here (s : string) : option string :=
  match s with
  | EmptyString => None
  | String c s' =>
      if Ascii.eqb c LF then None
      else match utf8_width c with
           | O => None
           | S w => drop w s'
           end
  end.

Fixpoint match_here (p : pattern) (s : string) : bool :=
  match p with
  | [] => true
  | Lit c :: p' =>
      match s with
      | EmptyString => false
      | String d s' => Ascii.eqb c d && match_here p' s'
      end
  | Dot :: p' =>
      match any_here s with
      | Some s' => match_here p' s'
      | None => false
      end
  end.

(** [pattern.search(s) is not None] *)
Fixpoint search (p : pattern) (s : string) : bool :=
  match_here p s ||
  match s with
  | EmptyString => false
  | String _ s' => search p s'
  end.

End re.

(** Timestamps as the store sends a [timestamptz] in UTC, of the one shape
    [YYYY-MM-DDTHH:MM:SS+00:00]; any other text is outside the model. *)
Module iso.

Definition digit (c : ascii) : option nat :=
  let n := nat_of_ascii c in
  if ((48 <=? n) && (n <=? 57))%nat then Some (n - 48)%nat else None.

Definition number (s : string) : option nat :=
  fold_left (fun acc c =>
               match acc, digit c with
               | Some a, Some d => Some (10 * a + d)%nat
               | _, _ => None
               end) (list_ascii_of_string s) (Some 0%nat).

Definition leap (y : nat) : bool :=
  ((y mod 4 =? 0) && (negb (y mod 100 =? 0) || (y mod 400 =? 0)))%nat.

Definition days_in (y m : nat) : nat :=
  match m with
  | 2 => if leap y then 29 else 28
  | 4 | 6 | 9 | 11 => 30
  | _ => 31
  end.

Definition between (lo x hi : nat) : bool := ((lo <=? x) && (x <=? hi))%nat.

Definition strftime_minute (s : string) : result string :=
  let tail := substring 19 (String.length s - 19) s in
  match number (substring 0 4 s), number (substring 5 2 s),
        number (substring 8 2 s), number (substring 11 2 s),
        number (substring 14 2 s), number (substring 17 2 s) with
  | Some y, Some m, Some d, Some h, Some n, Some sec =>
      if (19 <=? String.length s)%nat
         && String.eqb (substring 4 1 s) "-" && String.eqb (substring 7 1 s) "-"
         && String.eqb (substring 10 1 s) "T" && String.eqb (substring 13 1 s) ":"
         && String.eqb (substring 16 1 s) ":"
         && String.eqb tail "+00:00"
         && between 1678 y 2261 && between 1 m 12 && between 1 d (days_in y m)
         && between 0 h 23 && between 0 n 59 && between 0 sec 59
      then Ok (substring 0 10 s ++ " " ++ substring 11 5 s)
      else Raise Unmodelled
  | _, _, _, _, _, _ => Raise Unmodelled
  end.

End iso.

Definition python : Library :=
  {| regex := re.pattern;
     re_compile := re.compile;
     re_groups := fun _ => 0%nat;
     re_search := re.search;
     strftime_minute := iso.strftime_minute |}.

(** ** Reading the filter *)

Definition has_value (key : string) (row : record) : bool :=
  match lookup key row with
  | Str _ => true
  | NaN => false
  end.

(** The [student_id] of a record is found by the compiled pattern. *)
Definition matches (py : Library) (r : regex py) (row : record) : bool :=
  match lookup "student_id" row with
  | Str x => re_search py r x
  | NaN => false
  end.

(** The [student_id] of a record holds [s] as a substring. *)
Definition id_contains (s : string) (row : record) : bool :=
  match lookup "student_id" row with
  | Str x => contains s x
  | NaN => false
  end.

(** ** Reading a run *)

Definition never {A} (p : event -> bool) (m : run A) : Prop :=
  forall e, In e (events m) -> p e = false.

Definition is_runtime_warning (e : event) : bool :=
  match e with
  | Warn RuntimeWarning => true
  | _ => false
  end.

Definition is_download (e : event) : bool :=
  match e with
  | Draw (download_button _ _ _ _) => true
  | _ => false
  end.

(** The download button of section 9 for a frame. *)
Definition download_of (df : DataFrame) (now : string) : event :=
  Draw (download_button "CSV 파일로 다운로드 (엑셀 호환)" (convert_df df)
          ("submissions_" ++ now ++ ".csv") "text/csv").

(** The frame a run works on, when the timestamps convert. *)
Definition frame_of (py : Library) (raw_data : list record) : DataFrame :=
  match reformat_created_at py (pd_DataFrame raw_data) with
  | Ok df => df
  | Raise _ => pd_DataFrame raw_data
  end.

Definition with_search (s : session) (q : string) : session :=
  {| refresh_clicked := refresh_clicked s;
     response_data := response_data s;
     search_id := q;
     now := now s |}.

(** What the page shows when nothing was submitted: the heading, the refresh
    button, the placeholder and the sidebar. *)
Definition placeholder_page : list event :=
  [ Draw (title "📊 서술형 평가 교사용 대시보드");
    Draw (write "학생들이 제출한 답안과 AI 피드백을 실시간으로 확인합니다.");
    Draw (button "데이터 새로고침 🔄");
    Draw (info (Str "아직 제출된 답안이 없습니다."));
    DrawIn sidebar (markdown "### Dashboard Info");
    DrawIn sidebar (info (Str "이 대시보드는 Supabase 실시간 DB와 연동되어 있습니다. 학생이 제출 버튼을 누르면 즉시 반영됩니다.")) ].

(** ** The summary figures in the words of the specification *)

(** The record's answer to question 1 is marked correct. *)
Definition starts_with_O (row : record) : bool :=
  match lookup "feedback_1" row with
  | Str x => prefix "O:" x
  | NaN => false
  end.

(** The rate in the words of the specification: the number of records whose
    [feedback_1] starts with [O:], divided by the number of records, times
    100, printed with one decimal place. *)
Definition rate_of (records : list record) : string :=
  format_1f
    (fmul (fdiv (float_of_Z (Z.of_nat (List.length (filter starts_with_O records))))
                (float_of_Z (Z.of_nat (List.length records))))
          (float_of_Z 100)).

(** The three figures as the page shows them. *)
Definition figures (students submissions : nat) (rate : string) : list event :=
  [ Draw (columns_ 3);
    DrawIn (column 1) (metric "참여 학생 수" (str_nat students ++ "명"));
    DrawIn (column 2) (metric "총 제출 건수" (str_nat submissions ++ "건"));
    DrawIn (column 3) (metric "문항1 정답률" (rate ++ "%")) ].

(** ** Frames that read back *)

Definition has_cr (s : string) : bool := any_char (fun c => Ascii.eqb c CR) s.

(** No column label and no cell of the frame holds a carriage return. *)
Definition cr_free (df : DataFrame) : Prop :=
  Forall (fun c => has_cr c = false) (columns df)
  /\ Forall (Forall (fun v => has_cr (na_rep v) = false)) (values df).

(** Every record has exactly the columns of the frame as its keys, each
    once: what the store sends for [select("*")]. *)
Definition rectangular (df : DataFrame) : Prop :=
  NoDup (columns df) /\ Forall (fun r => map fst r = columns df) (rows df).

(** ** Sample sessions *)

Definition ids (l : list string) : list record := map (fun i => [("student_id", i)]) l.

Definition scenario : list record :=
  [ [("student_id", "101"); ("feedback_1", "O: correct")];
    [("student_id", "102"); ("feedback_1", "X: wrong")] ].

Definition nothing_submitted : session :=
  {| refresh_clicked := false; response_data := []; search_id := ""; now := "20240501_1000" |}.

Definition submission (student_id created_at f1 f2 f3 : string) : record :=
  [ ("id", "7"); ("student_id", student_id); ("created_at", created_at);
    ("answer_1", "a1"); ("feedback_1", f1);
    ("answer_2", "a2"); ("feedback_2", f2);
    ("answer_3", "a3"); ("feedback_3", f3) ].

Definition two_submissions : session :=
  {| refresh_clicked := false;
     response_data :=
       [ submission "101" "2024-05-01T09:30:15+00:00" "X: wrong, O: expected" "O: ok" "X" ;
         submission "102" "2024-04-30T23:59:59+00:00" "X: wrong" "X" "O:" ];
     search_id := "";
     now := "20240501_1000" |}.

Definition exported_frame : DataFrame := frame_of python (response_data two_submissions).

(** ** Reading the rest of a run *)

(** What every run draws before it looks at the records. *)
Definition page_header : list event :=
  [ Draw (title "📊 서술형 평가 교사용 대시보드");
    Draw (write "학생들이 제출한 답안과 AI 피드백을 실시간으로 확인합니다.");
    Draw (button "데이터 새로고침 🔄") ].

Definition is_table (e : event) : bool :=
  match e with
  | Draw (dataframe _ _) => true
  | _ => false
  end.

Definition is_metric (e : event) : bool :=
  match e with
  | DrawIn _ (metric _ _) => true
  | _ => false
  end.

Definition is_expander (e : event) : bool :=
  match e with
  | With (expander _) => true
  | _ => false
  end.

(** The labels of the expanders a run opened, in order. *)
Definition expander_labels (log : list event) : list string :=
  flat_map (fun e => match e with
                     | With (expander label) => [label]
                     | _ => []
                     end) log.

(** The label section 8 gives the expander of a row. *)
Definition expander_label (row : record) : string :=
  "[" ++ py_str (lookup "student_id" row) ++ "] 제출 시간: "
      ++ py_str (lookup "created_at" row).


(** How [set_value] under [key] relates a record to its result: same keys,
    the other cells untouched, the cell under [key] converted by [f]. *)
Definition converted (key : string) (f : string -> result string) (r r' : record) : Prop :=
  map fst r' = map fst r
  /\ (forall c, c <> key -> lookup c r' = lookup c r)
  /\ match lookup key r with
     | NaN => lookup key r' = NaN
     | Str v => exists v', f v = Ok v' /\ lookup key r' = Str v'
     end.

Definition no_created_at : session :=
  {| refresh_clicked := false; response_data := scenario; search_id := ""; now := "20240501_1000" |}.

(** * Properties *)

(** ** Runs *)

Lemma outcome_bind {A B} (m : run A) (k : A -> run B) :
  outcome (bind m k) =
  match outcome m with
  | Ok a => outcome (k a)
  | Raise e => Raise e
  end.
Proof.
  destruct m as [l [a | e]]; simpl; [destruct (k a) |]; reflexivity.
Qed.

Lemma events_bind {A B} (m : run A) (k : A -> run B) :
  events (bind m k) =
  (events m ++ match outcome m with
               | Ok a => events (k a)
               | Raise _ => []
               end)%list.
Proof.
  destruct m as [l [a | e]]; simpl; [destruct (k a) | rewrite app_nil_r]; reflexivity.
Qed.

(** ** Text *)

Lemma prefix_app s x : prefix s x = true <-> exists b, x = s ++ b.
Proof.
  revert x; induction s as [| c s IH]; intros x.
  - split; [intros _; exists x; reflexivity | intros _; destruct x; reflexivity].
  - destruct x as [| d x]; simpl.
    + split; [discriminate | intros [b Hb]; discriminate].
    + destruct (ascii_dec c d) as [-> | Hcd].
      * rewrite IH. split; intros [b Hb]; exists b; congruence.
      * split; [discriminate | intros [b Hb]; congruence].
Qed.

Lemma contains_app s x : contains s x = true <-> exists a b, x = a ++ s ++ b.
Proof.
  induction x as [| d x IH].
  - change (contains s "") with (prefix s "" || false).
    rewrite orb_false_r, prefix_app. split.
    + intros [b Hb]. exists "", b. exact Hb.
    + intros [a [b Hb]]. destruct a; [exists b; exact Hb | discriminate].
  - change (contains s (String d x))
      with (prefix s (String d x) || contains s x).
    rewrite orb_true_iff, IH, prefix_app. split.
    + intros [[b Hb] | [a [b Hb]]].
      * exists "", b. exact Hb.
      * exists (String d a), b. simpl. congruence.
    + intros [a [b Hb]]. destruct a as [| c a].
      * left. exists b. exact Hb.
      * right. exists a, b. simpl in Hb. congruence.
Qed.

(** ** Boolean indexing *)

Lemma take_where_map {A} (f : A -> bool) (l : list A) :
  take_where l (map f l) = filter f l.
Proof.
  induction l as [| x l IH]; simpl; [reflexivity |].
  rewrite IH. reflexivity.
Qed.

Lemma filter_idem {A} (f : A -> bool) (l : list A) :
  filter f (filter f l) = filter f l.
Proof.
  induction l as [| x l IH]; simpl; [reflexivity |].
  destruct (f x) eqn:E; simpl; [rewrite E, IH | rewrite IH]; reflexivity.
Qed.

Lemma forallb_filter_sub {A} (p f : A -> bool) (l : list A) :
  forallb p l = true -> forallb p (filter f l) = true.
Proof.
  induction l as [| x l IH]; simpl; [trivial |].
  intros H. apply andb_true_iff in H as [Hx Hl].
  destruct (f x); simpl; [rewrite Hx |]; auto.
Qed.

Lemma StronglySorted_filter {A} (R : A -> A -> Prop) (f : A -> bool) (l : list A) :
  StronglySorted R l -> StronglySorted R (filter f l).
Proof.
  induction 1 as [| x l Hl IH Hx]; simpl; [constructor |].
  destruct (f x); [| exact IH].
  constructor; [exact IH |].
  apply Forall_forall. intros y Hy. apply filter_In in Hy as [Hy _].
  rewrite Forall_forall in Hx. auto.
Qed.

Lemma has_na_mask (g : string -> bool) (key : string) (l : list record) :
  has_na (map (fun c => match c with Str x => Some (g x) | NaN => None end)
            (map (lookup key) l))
  = negb (forallb (has_value key) l).
Proof.
  induction l as [| row l IH]; simpl; [reflexivity |].
  unfold has_value at 1. destruct (lookup key row); simpl; [exact IH | reflexivity].
Qed.

Lemma select_mask (g : string -> bool) (key : string) (l : list record) :
  take_where l
    (map (fun b : option bool => match b with Some b => b | None => false end)
       (map (fun c => match c with Str x => Some (g x) | NaN => None end)
          (map (lookup key) l)))
  = filter (fun row => match lookup key row with Str x => g x | NaN => false end) l.
Proof.
  rewrite !map_map, take_where_map.
  apply filter_ext. intros row. destruct (lookup key row); reflexivity.
Qed.

(** ** The filter *)

Section Filter.

Variable py : Library.

(** What the filter step comes to, case by case. *)
Lemma filtered_df_outcome (df : DataFrame) (s : string) :
  outcome (filtered_df py df s) =
  if String.eqb s "" then Ok df
  else if has_key "student_id" (columns df) then
    match re_compile py s with
    | Raise e => Raise e
    | Ok r =>
        if forallb (has_value "student_id") (rows df)
        then Ok {| columns := columns df; rows := filter (matches py r) (rows df) |}
        else Raise ValueError
    end
  else Raise (KeyError "student_id").
Proof.
  unfold filtered_df. destruct (String.eqb s ""); [reflexivity |].
  rewrite outcome_bind. unfold getitem, lift. simpl outcome.
  destruct (has_key "student_id" (columns df)); [| reflexivity].
  rewrite outcome_bind. unfold str_contains.
  rewrite outcome_bind. unfold lift. cbn [outcome snd].
  destruct (re_compile py s) as [r | e]; [| reflexivity].
  rewrite outcome_bind.
  assert (Hw : outcome (if (0 <? re_groups py r)%nat
                        then emit (Warn UserWarning) else ret tt) = Ok tt)
    by (destruct (0 <? re_groups py r)%nat; reflexivity).
  rewrite Hw. cbn [outcome snd ret]. unfold getitem_mask.
  rewrite has_na_mask, select_mask.
  destruct (forallb (has_value "student_id") (rows df)); reflexivity.
Qed.

(** C7: with an empty search string the filter hands back the frame it
    was given: every record, in the same order, and nothing else happens. *)
Theorem filter_empty_search (df : DataFrame) :
  filtered_df py df "" = ([], Ok df).
Proof. reflexivity. Qed.

(** C8: filtering the result of the filter again with the same search
    string ends as the first filtering did: the same frame, or the same
    exception. *)
Theorem filter_idempotent (df : DataFrame) (s : string) :
  outcome (d <- filtered_df py df s ;; filtered_df py d s)
  = outcome (filtered_df py df s).
Proof.
  rewrite outcome_bind, filtered_df_outcome.
  destruct (String.eqb s "") eqn:Es.
  - rewrite filtered_df_outcome, Es. reflexivity.
  - destruct (has_key "student_id" (columns df)) eqn:Ek; [| reflexivity].
    destruct (re_compile py s) as [r | e] eqn:Er; [| reflexivity].
    destruct (forallb (has_value "student_id") (rows df)) eqn:Ev; [| reflexivity].
    rewrite filtered_df_outcome, Es. cbn [columns rows].
    rewrite Ek, Er, forallb_filter_sub, filter_idem by exact Ev.
    reflexivity.
Qed.

(** C10: with a non-empty search string the rows of the filtered frame
    are the rows of the frame with those the pattern does not find
    removed, in their original order; whatever order relation the fetched
    sequence is sorted by (descending [created_at]), the filtered sequence
    is sorted by it too. *)
Theorem filter_keeps_order (df df' : DataFrame) (s : string) :
  s <> "" ->
  outcome (filtered_df py df s) = Ok df' ->
  exists r, re_compile py s = Ok r
    /\ columns df' = columns df
    /\ rows df' = filter (matches py r) (rows df)
    /\ forall R : record -> record -> Prop,
         StronglySorted R (rows df) -> StronglySorted R (rows df').
Proof.
  intros Hs H. rewrite filtered_df_outcome in H.
  apply String.eqb_neq in Hs. rewrite Hs in H.
  destruct (has_key "student_id" (columns df)); [| discriminate].
  destruct (re_compile py s) as [r | e]; [| discriminate].
  destruct (forallb (has_value "student_id") (rows df)); [| discriminate].
  injection H as <-. exists r. cbn [columns rows].
  repeat split. intros R HR. apply StronglySorted_filter, HR.
Qed.

End Filter.

(** ** The filter under the model of [re] *)

Lemma metachar_dot c : re.metachar c = false -> Ascii.eqb c "."%char = false.
Proof.
  unfold re.metachar. simpl. intros H.
  apply orb_false_iff in H as [H _]. exact H.
Qed.

Lemma metachar_backslash c : re.metachar c = false -> Ascii.eqb c "\"%char = false.
Proof.
  unfold re.metachar. simpl. intros H.
  repeat (apply orb_false_iff in H as [? H]). assumption.
Qed.

Lemma compile_literal (s : string) :
  any_char re.metachar s = false ->
  re.compile s = Ok (map re.Lit (list_ascii_of_string s)).
Proof.
  induction s as [| c s IH]; simpl; [reflexivity |].
  intros H. apply orb_false_iff in H as [Hc Hs].
  rewrite (metachar_dot c Hc), (metachar_backslash c Hc), Hc, (IH Hs).
  reflexivity.
Qed.

Lemma match_here_literal (s x : string) :
  re.match_here (map re.Lit (list_ascii_of_string s)) x = prefix s x.
Proof.
  revert x; induction s as [| c s IH]; intros x; simpl.
  - destruct x; reflexivity.
  - destruct x as [| d x]; [reflexivity |].
    cbn [prefix]. destruct (ascii_dec c d) as [-> | Hcd].
    + rewrite Ascii.eqb_refl, IH. reflexivity.
    + apply Ascii.eqb_neq in Hcd. rewrite Hcd. reflexivity.
Qed.

Lemma search_literal (s x : string) :
  re.search (map re.Lit (list_ascii_of_string s)) x = contains s x.
Proof.
  induction x as [| d x IH].
  - simpl re.search. rewrite match_here_literal. reflexivity.
  - change (re.search (map re.Lit (list_ascii_of_string s)) (String d x))
      with (re.match_here (map re.Lit (list_ascii_of_string s)) (String d x)
            || re.search (map re.Lit (list_ascii_of_string s)) x).
    rewrite match_here_literal, IH. reflexivity.
Qed.

(** C3, as the code has it: a search string without regular-expression
    metacharacters keeps exactly the records whose [student_id] holds it as
    a substring, compared character by character; the frame it was given
    is not touched, the result is a new frame over the same columns. *)
Theorem filter_literal_substring (df : DataFrame) (s : string) :
  s <> "" ->
  any_char re.metachar s = false ->
  has_key "student_id" (columns df) = true ->
  forallb (has_value "student_id") (rows df) = true ->
  filtered_df python df s
    = ([], Ok {| columns := columns df; rows := filter (id_contains s) (rows df) |})
  /\ forall row, In row (filter (id_contains s) (rows df)) <->
       In row (rows df) /\ exists a b, lookup "student_id" row = Str (a ++ s ++ b).
Proof.
  intros Hs Hm Hk Hv. split.
  - unfold filtered_df. apply String.eqb_neq in Hs. rewrite Hs.
    unfold getitem. rewrite Hk. unfold str_contains.
    cbn [re_compile re_groups re_search python]. rewrite (compile_literal s Hm).
    cbn [lift bind ret app Nat.ltb Nat.leb]. unfold getitem_mask.
    rewrite has_na_mask, select_mask, Hv. cbn [negb].
    f_equal. f_equal. f_equal. apply filter_ext. intros row.
    unfold id_contains. destruct (lookup "student_id" row); [| reflexivity].
    apply search_literal.
  - intros row. rewrite filter_In. unfold id_contains.
    destruct (lookup "student_id" row) as [x |].
    + rewrite contains_app. split; intros [Hin [a [b Hab]]]; (split; [exact Hin |]);
        exists a, b; congruence.
    + split; [intros [_ H]; discriminate | intros [_ [a [b H]]]; discriminate].
Qed.

Lemma filter_literal_substring_witness :
  filtered_df python (pd_DataFrame (ids ["2101"; "1102"; "abc"])) "10"
    = ([], Ok {| columns := columns (pd_DataFrame (ids ["2101"; "1102"; "abc"]));
                 rows := filter (id_contains "10")
                           (rows (pd_DataFrame (ids ["2101"; "1102"; "abc"]))) |})
  /\ forall row,
       In row (filter (id_contains "10") (rows (pd_DataFrame (ids ["2101"; "1102"; "abc"])))) <->
       In row (rows (pd_DataFrame (ids ["2101"; "1102"; "abc"])))
       /\ exists a b, lookup "student_id" row = Str (a ++ "10" ++ b).
Proof.
  apply (filter_literal_substring (pd_DataFrame (ids ["2101"; "1102"; "abc"])) "10");
    [discriminate | reflexivity | reflexivity | reflexivity].
Defined.

(** C3, as the claim words it, fails: the search string is a regular
    expression, so [.] keeps the record of student 101, whose identifier
    holds no full stop. *)
Lemma filter_dot_counterexample :
  "." <> ""
  /\ filtered_df python (pd_DataFrame (ids ["101"])) "."
       = ([], Ok (pd_DataFrame (ids ["101"])))
  /\ filter (id_contains ".") (rows (pd_DataFrame (ids ["101"]))) = []
  /\ contains "." "101" = false.
Proof. repeat split; discriminate. Qed.

Lemma filter_keeps_order_witness :
  exists r, re_compile python "1.1" = Ok r
    /\ columns (pd_DataFrame (ids ["101"; "202"; "2111"]))
       = columns (pd_DataFrame (ids ["101"; "202"; "2111"]))
    /\ rows (pd_DataFrame (ids ["101"; "2111"]))
       = filter (matches python r) (rows (pd_DataFrame (ids ["101"; "202"; "2111"])))
    /\ forall R : record -> record -> Prop,
         StronglySorted R (rows (pd_DataFrame (ids ["101"; "202"; "2111"]))) ->
         StronglySorted R (rows (pd_DataFrame (ids ["101"; "2111"]))).
Proof.
  apply (filter_keeps_order python (pd_DataFrame (ids ["101"; "202"; "2111"]))
           (pd_DataFrame (ids ["101"; "2111"])) "1.1");
    [discriminate | reflexivity].
Defined.

(** ** What a run never does *)

Lemma in_events_bind {A B} (m : run A) (k : A -> run B) (e : event) :
  In e (events (bind m k)) <->
  In e (events m) \/ exists a, outcome m = Ok a /\ In e (events (k a)).
Proof.
  rewrite events_bind, in_app_iff. destruct (outcome m) as [a | x].
  - split; intros [H | H]; auto.
    + right. exists a. auto.
    + destruct H as [a' [Ha H]]. injection Ha as <-. auto.
  - split; intros [H | H]; auto.
    + destruct H.
    + destruct H as [a' [Ha _]]. discriminate.
Qed.

Lemma never_bind {A B} p (m : run A) (k : A -> run B) :
  never p m -> (forall a, outcome m = Ok a -> never p (k a)) -> never p (bind m k).
Proof.
  intros Hm Hk e He. apply in_events_bind in He as [He | [a [Ha He]]].
  - exact (Hm e He).
  - exact (Hk a Ha e He).
Qed.

Lemma never_pure {A} p (r : result A) : never p (lift r).
Proof. intros e []. Qed.

Lemma never_emit p (e : event) : p e = false -> never p (emit e).
Proof. intros H e' [<- | []]. exact H. Qed.

Lemma never_for_each {A} p (l : list A) (body : A -> run unit) :
  (forall x, In x l -> never p (body x)) -> never p (for_each l body).
Proof.
  induction l as [| x l IH]; intros H.
  - exact (never_pure p (Ok tt)).
  - apply never_bind; [apply H; left; reflexivity |].
    intros _ _. apply IH. intros y Hy. apply H. right. exact Hy.
Qed.

(** A run made of draws, [with] blocks and pure steps never does [p] when
    none of its elements does. *)
Ltac never_step :=
  first
    [ apply never_pure
    | exact (never_pure _ (Ok tt))
    | apply never_emit; reflexivity
    | apply never_bind; [| intros ? ?]
    | match goal with
      | |- never _ (if ?b then _ else _) => destruct b
      end ].

Ltac never_tac := unfold with_, draw, draw_in, ret, raise; repeat never_step.

Lemma never_feedback_box p (v : cell) :
  p (Draw (success v)) = false -> p (Draw (warning v)) = false ->
  never p (feedback_box v).
Proof.
  intros Hs Hw. unfold feedback_box. apply never_bind; [apply never_pure |].
  intros b _. destruct b; apply never_emit; assumption.
Qed.

Lemma never_detail p (df : DataFrame) (row : record) :
  (forall e, is_runtime_warning e = false -> is_download e = false -> p e = false) ->
  never p (detail df row).
Proof.
  intros Hp. unfold detail, with_, draw, draw_in, ret.
  repeat first
    [ apply never_pure
    | apply never_feedback_box; apply Hp; reflexivity
    | apply never_emit; apply Hp; reflexivity
    | apply never_bind; [| intros ? ?] ].
Qed.

Lemma true_divide_nonzero (numpy_scalar : bool) (a b : Z) :
  b <> 0%Z ->
  true_divide numpy_scalar a b = ([], Ok (fdiv (float_of_Z a) (float_of_Z b))).
Proof.
  intros Hb. unfold true_divide. apply Z.eqb_neq in Hb. rewrite Hb. reflexivity.
Qed.

Lemma divisor_nonzero (df : DataFrame) :
  rows df <> [] -> Z.of_nat (total_submissions df) <> 0%Z.
Proof.
  unfold total_submissions, len. destruct (rows df); [congruence | simpl; lia].
Qed.

Lemma correct_rate_nonempty (df : DataFrame) :
  rows df <> [] ->
  correct_rate df =
  match q1_correct df with
  | Ok mask =>
      ([], Ok (fmul (fdiv (float_of_Z (sum mask))
                       (float_of_Z (Z.of_nat (total_submissions df))))
                 (float_of_Z 100)))
  | Raise e => ([], Raise e)
  end.
Proof.
  intros Hne. unfold correct_rate. destruct (q1_correct df) as [mask | e]; [| reflexivity].
  cbn [lift bind]. rewrite (true_divide_nonzero _ _ _ (divisor_nonzero df Hne)).
  reflexivity.
Qed.

Lemma never_summary p (df : DataFrame) :
  rows df <> [] ->
  (forall e, is_runtime_warning e = false -> is_download e = false -> p e = false) ->
  never p (summary df).
Proof.
  intros Hne Hp. unfold summary, draw, draw_in.
  apply never_bind; [apply never_pure | intros k _].
  apply never_bind.
  - rewrite (correct_rate_nonempty df Hne).
    destruct (q1_correct df); intros ev [].
  - intros rate _.
    repeat first [ apply never_emit; apply Hp; reflexivity
                 | apply never_bind; [| intros ? ?] ].
Qed.

Lemma mapM_length {A B} (f : A -> result B) (l : list A) (l' : list B) :
  mapM f l = Ok l' -> List.length l' = List.length l.
Proof.
  revert l'; induction l as [| x l IH]; intros l'; simpl.
  - intros [= <-]. reflexivity.
  - destruct (f x) as [y | e]; simpl; [| discriminate].
    destruct (mapM f l) as [ys | e]; simpl; [| discriminate].
    intros [= <-]. simpl. rewrite (IH ys); reflexivity.
Qed.

Section PageRuns.

Variable py : Library.

Lemma reformat_rows (df df' : DataFrame) :
  reformat_created_at py df = Ok df' ->
  columns df' = columns df /\ List.length (rows df') = List.length (rows df).
Proof.
  unfold reformat_created_at.
  destruct (getitem df "created_at"); simpl; [| discriminate].
  destruct (mapM _ (rows df)) as [rs | e] eqn:E; simpl; [| discriminate].
  intros [= <-]. simpl. split; [reflexivity | exact (mapM_length _ _ _ E)].
Qed.

Lemma reformat_nonempty (raw_data : list record) (df : DataFrame) :
  raw_data <> [] ->
  reformat_created_at py (pd_DataFrame raw_data) = Ok df -> rows df <> [].
Proof.
  intros Hne H. apply reformat_rows in H as [_ H]. simpl in H.
  destruct (rows df); [| discriminate].
  destruct raw_data; [congruence | discriminate].
Qed.

Lemma never_filtered_df p (df : DataFrame) (s : string) :
  (forall e, is_runtime_warning e = false -> is_download e = false -> p e = false) ->
  never p (filtered_df py df s).
Proof.
  intros Hp. unfold filtered_df, str_contains, ret.
  destruct (String.eqb s ""); [intros e [] |].
  repeat first
    [ apply never_pure
    | exact (never_pure _ (Ok tt))
    | apply never_emit; apply Hp; reflexivity
    | apply never_bind; [| intros ? ?]
    | match goal with
      | |- never _ (if ?b then _ else _) => destruct b
      end ].
Qed.

Lemma in_bind_skip {A B} p (m : run A) (k : A -> run B) (e : event) :
  never p m -> p e = true -> In e (events (bind m k)) ->
  exists a, outcome m = Ok a /\ In e (events (k a)).
Proof.
  intros Hm Hp He. apply in_events_bind in He as [He | He]; [| exact He].
  specialize (Hm e He). congruence.
Qed.

Lemma never_dashboard (raw_data : list record) (q now : string) :
  raw_data <> [] -> never is_runtime_warning (dashboard py raw_data q now).
Proof.
  intros Hne. unfold dashboard.
  apply never_bind; [apply never_pure | intros df Hdf].
  assert (Hrows : rows df <> []) by exact (reformat_nonempty raw_data df Hne Hdf).
  apply never_bind; [apply never_summary; auto | intros _ _].
  unfold draw.
  do 3 (apply never_bind; [apply never_emit; reflexivity | intros _ _]).
  apply never_bind; [apply never_filtered_df; auto | intros fd _].
  apply never_bind; [apply never_pure | intros table _].
  do 2 (apply never_bind; [apply never_emit; reflexivity | intros _ _]).
  apply never_bind; [apply never_for_each; intros; apply never_detail; auto |].
  intros _ _. unfold export. never_tac.
Qed.

Lemma never_teacher_page (s : session) :
  never is_runtime_warning (teacher_page py s).
Proof.
  unfold teacher_page, draw, draw_in.
  do 3 (apply never_bind; [apply never_emit; reflexivity | intros _ _]).
  apply never_bind; [destruct (refresh_clicked s); intros e [] | intros _ _].
  apply never_bind; [| intros _ _; never_tac].
  destruct (response_data s) as [| r raw] eqn:E.
  - apply never_emit. reflexivity.
  - apply never_dashboard. discriminate.
Qed.

Lemma download_in_dashboard (raw_data : list record) (q now : string) (e : event) :
  raw_data <> [] ->
  is_download e = true ->
  In e (events (dashboard py raw_data q now)) ->
  exists df, reformat_created_at py (pd_DataFrame raw_data) = Ok df
             /\ e = download_of df now.
Proof.
  intros Hne Hp He. unfold dashboard in He.
  apply (in_bind_skip is_download) in He as [df [Hdf He]];
    [| apply never_pure | exact Hp].
  exists df. split; [exact Hdf |].
  assert (Hrows : rows df <> []) by exact (reformat_nonempty raw_data df Hne Hdf).
  apply (in_bind_skip is_download) in He as [_ [_ He]];
    [| apply never_summary; auto | exact Hp].
  unfold draw in He.
  do 3 (apply (in_bind_skip is_download) in He as [_ [_ He]];
        [| apply never_emit; reflexivity | exact Hp]).
  apply (in_bind_skip is_download) in He as [fd [_ He]];
    [| apply never_filtered_df; auto | exact Hp].
  apply (in_bind_skip is_download) in He as [table [_ He]];
    [| apply never_pure | exact Hp].
  do 2 (apply (in_bind_skip is_download) in He as [_ [_ He]];
        [| apply never_emit; reflexivity | exact Hp]).
  apply (in_bind_skip is_download) in He as [_ [_ He]];
    [| apply never_for_each; intros; apply never_detail; auto | exact Hp].
  simpl in He. destruct He as [<- | [<- | [<- | []]]]; try discriminate.
  reflexivity.
Qed.

Lemma download_in_page (s : session) (e : event) :
  is_download e = true ->
  In e (events (teacher_page py s)) ->
  exists df, reformat_created_at py (pd_DataFrame (response_data s)) = Ok df
             /\ e = download_of df (now s).
Proof.
  intros Hp He. unfold teacher_page, draw, draw_in in He.
  do 3 (apply (in_bind_skip is_download) in He as [_ [_ He]];
        [| apply never_emit; reflexivity | exact Hp]).
  apply (in_bind_skip is_download) in He as [_ [_ He]];
    [| destruct (refresh_clicked s); intros ev [] | exact Hp].
  apply in_events_bind in He as [He | [_ [_ He]]].
  - destruct (response_data s) as [| r raw] eqn:E.
    + destruct He as [<- | []]. discriminate.
    + apply download_in_dashboard with (q := search_id s); [discriminate | exact Hp | exact He].
  - simpl in He. destruct He as [<- | [<- | []]]; discriminate.
Qed.

End PageRuns.

(** ** The summary figures *)

Lemma unique_from_length (seen s : list cell) :
  (List.length (unique_from seen s) <= List.length s)%nat.
Proof.
  revert seen; induction s as [| x s IH]; intros seen; simpl; [lia |].
  destruct (in_dec cell_eq_dec x seen).
  - specialize (IH seen). lia.
  - simpl. specialize (IH (x :: seen)). lia.
Qed.

Lemma sum_startswith (l : list record) :
  sum (str_startswith "O:" (map (lookup "feedback_1") l))
  = Z.of_nat (List.length (filter starts_with_O l)).
Proof.
  induction l as [| row l IH]; [reflexivity |].
  cbn [map str_startswith filter sum]. unfold starts_with_O at 1.
  fold (str_startswith "O:" (map (lookup "feedback_1") l)).
  destruct (lookup "feedback_1" row) as [x |]; [| exact IH].
  destruct (prefix "O:" x); [| exact IH].
  cbn [List.length]. rewrite IH. lia.
Qed.

(** C9: whenever the frame has records and a [student_id] column, the
    number of distinct identifiers is computed and lies between 1 and the
    number of submissions. *)
Theorem students_le_submissions (df : DataFrame) :
  rows df <> [] ->
  has_key "student_id" (columns df) = true ->
  exists k, total_students df = Ok k
            /\ (1 <= k)%nat /\ (k <= total_submissions df)%nat.
Proof.
  intros Hne Hk. unfold total_students, getitem. rewrite Hk. simpl.
  eexists. split; [reflexivity |]. unfold total_submissions, len, unique. split.
  - destruct (rows df) as [| r l]; [congruence |]. simpl. lia.
  - rewrite <- (length_map (lookup "student_id") (rows df)).
    apply unique_from_length.
Qed.

Lemma students_le_submissions_witness :
  exists k, total_students (pd_DataFrame scenario) = Ok k
            /\ (1 <= k)%nat /\ (k <= total_submissions (pd_DataFrame scenario))%nat.
Proof.
  apply (students_le_submissions (pd_DataFrame scenario)); [discriminate | reflexivity].
Defined.

(** C1: for a frame with records, the third figure is the rate of the
    specification: records whose [feedback_1] starts with [O:] over all
    records, times 100, one decimal place; the scenario of two records,
    one correct, shows 2 students, 2 submissions and 50.0. *)
Theorem correct_rate_displayed :
  (forall (df : DataFrame) (students : nat),
      rows df <> [] ->
      total_students df = Ok students ->
      has_key "feedback_1" (columns df) = true ->
      summary df
      = (figures students (List.length (rows df)) (rate_of (rows df)), Ok tt))
  /\ summary (pd_DataFrame scenario) = (figures 2 2 "50.0", Ok tt).
Proof.
  split; [| vm_compute; reflexivity].
  intros df students Hne Hs Hk. unfold summary. rewrite Hs.
  rewrite (correct_rate_nonempty df Hne). unfold q1_correct, getitem. rewrite Hk.
  cbn [rbind lift bind]. rewrite sum_startswith. reflexivity.
Qed.

Lemma correct_rate_displayed_witness :
  summary (pd_DataFrame scenario)
  = (figures 2 (List.length (rows (pd_DataFrame scenario)))
       (rate_of (rows (pd_DataFrame scenario))), Ok tt).
Proof.
  apply (proj1 correct_rate_displayed (pd_DataFrame scenario) 2%nat);
    [discriminate | reflexivity | reflexivity].
Defined.

(** ** The empty record set *)

(** C6: with an empty record set and the refresh button not pressed the
    page is the placeholder page and nothing else, no figure and no detail
    block; no run of the page divides by zero with a warning, and for the
    frame of a non-empty record set the divisor of the rate is not zero, so
    the division neither warns nor raises. *)
Theorem empty_set_shows_placeholder (py : Library) (s : session) :
  (response_data s = [] -> refresh_clicked s = false ->
   teacher_page py s = (placeholder_page, Ok tt))
  /\ never is_runtime_warning (teacher_page py s)
  /\ (forall df, response_data s <> [] ->
        reformat_created_at py (pd_DataFrame (response_data s)) = Ok df ->
        Z.of_nat (total_submissions df) <> 0%Z
        /\ events (correct_rate df) = []
        /\ outcome (correct_rate df) <> Raise ZeroDivisionError).
Proof.
  split; [| split].
  - intros Hd Hr. unfold teacher_page. rewrite Hd, Hr. reflexivity.
  - apply never_teacher_page.
  - intros df Hne Hdf.
    assert (Hrows : rows df <> []) by exact (reformat_nonempty py _ df Hne Hdf).
    split; [exact (divisor_nonzero df Hrows) |].
    rewrite (correct_rate_nonempty df Hrows).
    destruct (q1_correct df) as [mask | e] eqn:E; split; try reflexivity; try discriminate.
    unfold q1_correct in E. destruct (getitem df "feedback_1") eqn:G; [discriminate |].
    unfold getitem in G. destruct (has_key "feedback_1" (columns df)); [discriminate |].
    simpl in E. injection G as <-. injection E as <-. simpl. discriminate.
Qed.

Lemma empty_set_shows_placeholder_witness :
  teacher_page python nothing_submitted = (placeholder_page, Ok tt)
  /\ (Z.of_nat (total_submissions exported_frame) <> 0%Z
      /\ events (correct_rate exported_frame) = []
      /\ outcome (correct_rate exported_frame) <> Raise ZeroDivisionError).
Proof.
  split.
  - apply (proj1 (empty_set_shows_placeholder python nothing_submitted)); reflexivity.
  - apply (proj2 (proj2 (empty_set_shows_placeholder python two_submissions))
             exported_frame); [discriminate | reflexivity].
Defined.

(** ** The export and the search string *)

(** C4: two runs of the page that differ only in the search string and both
    offer the download offer the same download: the serialization of the
    whole frame built from the fetched records, under the same file name. *)
Theorem export_ignores_search (py : Library) (s : session) (q1 q2 : string)
  (b1 b2 : event) :
  is_download b1 = true -> In b1 (events (teacher_page py (with_search s q1))) ->
  is_download b2 = true -> In b2 (events (teacher_page py (with_search s q2))) ->
  b1 = b2
  /\ exists df, reformat_created_at py (pd_DataFrame (response_data s)) = Ok df
                /\ b1 = download_of df (now s).
Proof.
  intros Hp1 H1 Hp2 H2.
  apply download_in_page in H1 as [df1 [Hd1 ->]]; [| exact Hp1].
  apply download_in_page in H2 as [df2 [Hd2 ->]]; [| exact Hp2].
  simpl in Hd1, Hd2. rewrite Hd1 in Hd2. injection Hd2 as <-.
  split; [reflexivity |]. exists df1. split; [exact Hd1 | reflexivity].
Qed.

Ltac in_log := vm_compute; repeat (first [left; reflexivity | right]).

Lemma export_ignores_search_witness :
  download_of (frame_of python (response_data two_submissions)) "20240501_1000"
  = download_of (frame_of python (response_data two_submissions)) "20240501_1000"
  /\ exists df,
       reformat_created_at python (pd_DataFrame (response_data two_submissions)) = Ok df
       /\ download_of (frame_of python (response_data two_submissions)) "20240501_1000"
          = download_of df (now two_submissions).
Proof.
  apply (export_ignores_search python two_submissions "" "1.2").
  - reflexivity.
  - in_log.
  - reflexivity.
  - in_log.
Defined.

(** ** The styling of feedback *)

Lemma prefix_contains (sub s : string) :
  prefix sub s = true -> contains sub s = true.
Proof.
  intros H. destruct s as [| c s].
  - change (contains sub "") with (prefix sub "" || false).
    rewrite H. reflexivity.
  - change (contains sub (String c s))
      with (prefix sub (String c s) || contains sub s).
    rewrite H. reflexivity.
Qed.

(** C2 does not hold of the code: a feedback is drawn as a success exactly
    when it holds [O:] anywhere, as a warning otherwise.  A feedback that
    starts with [O:] is a success, as claimed; but the feedback
    [X: wrong, O: expected], which does not start with [O:], is a success
    too, while the rate of question 1 counts the same text as not
    correct. *)
Theorem feedback_styled_by_containment :
  (forall x : string,
      feedback_box (Str x)
      = ([Draw (if contains "O:" x then success (Str x) else warning (Str x))], Ok tt))
  /\ (forall x : string,
        prefix "O:" x = true ->
        feedback_box (Str x) = ([Draw (success (Str x))], Ok tt))
  /\ prefix "O:" "X: wrong, O: expected" = false
  /\ feedback_box (Str "X: wrong, O: expected")
     = ([Draw (success (Str "X: wrong, O: expected"))], Ok tt)
  /\ In (Draw (success (Str "X: wrong, O: expected")))
       (events (teacher_page python two_submissions))
  /\ In (DrawIn (column 3) (metric "문항1 정답률" "0.0%"))
       (events (teacher_page python two_submissions)).
Proof.
  split; [| split; [| split; [| split; [| split]]]].
  - intros x. unfold feedback_box. cbn [py_in lift bind].
    destruct (contains "O:" x); reflexivity.
  - intros x H. unfold feedback_box. cbn [py_in lift bind].
    rewrite (prefix_contains "O:" x H). reflexivity.
  - reflexivity.
  - reflexivity.
  - in_log.
  - in_log.
Qed.

(** ** The export read back *)

Lemma append_nil_r (s : string) : s ++ "" = s.
Proof. induction s as [| c s IH]; simpl; [| rewrite IH]; reflexivity. Qed.

Lemma append_assoc (a b c : string) : (a ++ b) ++ c = a ++ (b ++ c).
Proof. induction a as [| x a IH]; simpl; [| rewrite IH]; reflexivity. Qed.

Lemma snoc_append (s : string) (c : ascii) (t : string) :
  snoc s c ++ t = s ++ String c t.
Proof. unfold snoc. rewrite append_assoc. reflexivity. Qed.

Lemma kind_other (c : ascii) :
  special c = false -> Ascii.eqb c CR = false -> kind c = Other.
Proof.
  unfold special, kind. intros H Hcr.
  apply orb_false_iff in H as [H Hlf]. apply orb_false_iff in H as [Hd Hq].
  rewrite Hd, Hq, Hlf, Hcr. reflexivity.
Qed.

Lemma kind_quote (c : ascii) : Ascii.eqb c quotechar = true -> kind c = Quote.
Proof.
  intros H. apply Ascii.eqb_eq in H. subst c. reflexivity.
Qed.

Lemma kind_not_quote (c : ascii) : Ascii.eqb c quotechar = false -> kind c <> Quote.
Proof.
  unfold kind. intros H. rewrite H.
  destruct (Ascii.eqb c delimiter), (Ascii.eqb c LF), (Ascii.eqb c CR); discriminate.
Qed.

Lemma read_plain (f fld : string) (fields : list string) (rest : string) :
  any_char special f = false -> has_cr f = false ->
  reader_from IN_FIELD fld fields (f ++ rest)
  = reader_from IN_FIELD (fld ++ f) fields rest.
Proof.
  revert fld; induction f as [| c f IH]; intros fld Hs Hc.
  - rewrite append_nil_r. reflexivity.
  - simpl in Hs, Hc.
    apply orb_false_iff in Hs as [Hs Hs']. apply orb_false_iff in Hc as [Hc Hc'].
    cbn [append reader_from]. rewrite (kind_other c Hs Hc).
    rewrite (IH _ Hs' Hc'), snoc_append. reflexivity.
Qed.

Lemma read_quoted (f fld : string) (fields : list string) (rest : string) :
  reader_from IN_QUOTED_FIELD fld fields (double_quotes f ++ String quotechar rest)
  = reader_from QUOTE_IN_QUOTED_FIELD (fld ++ f) fields rest.
Proof.
  revert fld; induction f as [| c f IH]; intros fld.
  - rewrite append_nil_r. reflexivity.
  - cbn [double_quotes]. destruct (Ascii.eqb c quotechar) eqn:E.
    + cbn [append reader_from]. rewrite (kind_quote c E).
      rewrite IH, snoc_append. reflexivity.
    + cbn [append reader_from]. pose proof (kind_not_quote c E) as Hk.
      rewrite <- (snoc_append fld c f), <- IH.
      destruct (kind c); try reflexivity. congruence.
Qed.

(** A written field followed by the delimiter is read as that field. *)
Lemma read_field_delimiter (f : string) (fields : list string) (rest : string) :
  has_cr f = false ->
  reader_from START_FIELD "" fields (write_field f ++ String delimiter rest)
  = reader_from START_FIELD "" (fields ++ [f])%list rest.
Proof.
  intros Hc. unfold write_field. destruct (any_char special f) eqn:Hs.
  - cbn [append reader_from]. change (kind quotechar) with Quote. cbv iota.
    rewrite append_assoc. cbn [append]. rewrite read_quoted. reflexivity.
  - destruct f as [| c f]; [reflexivity |].
    simpl in Hs, Hc.
    apply orb_false_iff in Hs as [Hs Hs']. apply orb_false_iff in Hc as [Hc Hc'].
    cbn [append reader_from]. rewrite (kind_other c Hs Hc).
    rewrite (read_plain f _ _ _ Hs' Hc'). reflexivity.
Qed.

(** A written field followed by the line terminator closes the record. *)
Lemma read_field_newline (f : string) (fields : list string) (rest : string) :
  has_cr f = false ->
  reader_from START_FIELD "" fields (write_field f ++ String LF rest)
  = (fields ++ [f])%list :: reader_from START_RECORD "" [] rest.
Proof.
  intros Hc. unfold write_field. destruct (any_char special f) eqn:Hs.
  - cbn [append reader_from]. change (kind quotechar) with Quote. cbv iota.
    rewrite append_assoc. cbn [append]. rewrite read_quoted. reflexivity.
  - destruct f as [| c f]; [reflexivity |].
    simpl in Hs, Hc.
    apply orb_false_iff in Hs as [Hs Hs']. apply orb_false_iff in Hc as [Hc Hc'].
    cbn [append reader_from]. rewrite (kind_other c Hs Hc).
    rewrite (read_plain f _ _ _ Hs' Hc'). reflexivity.
Qed.

Lemma read_fields (fs acc : list string) (rest : string) :
  fs <> [] -> Forall (fun f => has_cr f = false) fs ->
  reader_from START_FIELD "" acc (join_fields fs ++ String LF rest)
  = (acc ++ fs)%list :: reader_from START_RECORD "" [] rest.
Proof.
  revert acc; induction fs as [| f fs IH]; intros acc Hne Hc; [congruence |].
  inversion Hc as [| ? ? Hf Hfs]; subst.
  destruct fs as [| g fs].
  - apply read_field_newline. exact Hf.
  - change (join_fields (f :: g :: fs))
      with (write_field f ++ String delimiter (join_fields (g :: fs))).
    rewrite append_assoc. cbn [append].
    rewrite (read_field_delimiter f _ _ Hf), IH by (congruence || assumption).
    rewrite <- app_assoc. reflexivity.
Qed.

Lemma start_record_field (c : ascii) (fields : list string) (rest : string) :
  kind c <> LineFeed -> kind c <> CarriageReturn ->
  reader_from START_RECORD "" fields (String c rest)
  = reader_from START_FIELD "" fields (String c rest).
Proof.
  intros H1 H2. cbn [reader_from]. destruct (kind c); congruence.
Qed.

(** The first character of a written record is neither line end, unless the
    record is the one empty field. *)
Lemma join_fields_head (fs : list string) (rest : string) :
  fs <> [] -> fs <> [""] -> Forall (fun f => has_cr f = false) fs ->
  exists c rest',
    join_fields fs ++ String LF rest = String c rest'
    /\ kind c <> LineFeed /\ kind c <> CarriageReturn.
Proof.
  intros Hne Hne' Hc. destruct fs as [| f fs]; [congruence |].
  inversion Hc as [| ? ? Hf Hfs]; subst.
  assert (Hw : (exists c w, write_field f = String c w
                            /\ kind c <> LineFeed /\ kind c <> CarriageReturn)
               \/ (f = "" /\ write_field f = "")).
  { unfold write_field. destruct (any_char special f) eqn:Hs.
    - left. do 2 eexists. split; [reflexivity |]. split; discriminate.
    - destruct f as [| c f]; [right; split; reflexivity |].
      left. exists c, f. split; [reflexivity |].
      simpl in Hs, Hf.
      apply orb_false_iff in Hs as [Hs _]. apply orb_false_iff in Hf as [Hf _].
      rewrite (kind_other c Hs Hf). split; discriminate. }
  destruct Hw as [[c [w [Hw [H1 H2]]]] | [-> Hw]].
  - destruct fs as [| g fs].
    + cbn [join_fields]. rewrite Hw. exists c, (w ++ String LF rest).
      split; [reflexivity | split; assumption].
    + change (join_fields (f :: g :: fs))
        with (write_field f ++ String delimiter (join_fields (g :: fs))).
      rewrite Hw. eexists c, _. split; [reflexivity | split; assumption].
  - destruct fs as [| g fs]; [congruence |].
    exists delimiter. eexists. split; [reflexivity |]. split; discriminate.
Qed.

Lemma read_row (fs : list string) (rest : string) :
  fs <> [] -> Forall (fun f => has_cr f = false) fs ->
  reader_from START_RECORD "" [] (writerow fs ++ rest)
  = fs :: reader_from START_RECORD "" [] rest.
Proof.
  intros Hne Hc.
  destruct (list_eq_dec string_dec fs [""]) as [-> | Hne'].
  - reflexivity.
  - assert (Hw : writerow fs = join_fields fs ++ lineterminator).
    { destruct fs as [| [| c f] [| g fs]]; try reflexivity. congruence. }
    rewrite Hw, append_assoc. cbn [lineterminator append].
    destruct (join_fields_head fs rest Hne Hne' Hc) as [c [rest' [E [H1 H2]]]].
    rewrite E, (start_record_field c [] rest' H1 H2), <- E.
    apply (read_fields fs [] rest Hne Hc).
Qed.

Lemma concat_cons (x : string) (l : list string) :
  String.concat "" (x :: l) = x ++ String.concat "" l.
Proof.
  destruct l; simpl; [rewrite append_nil_r |]; reflexivity.
Qed.

Lemma read_rows (rows : list (list string)) :
  Forall (fun fs => fs <> [] /\ Forall (fun f => has_cr f = false) fs) rows ->
  reader_from START_RECORD "" [] (String.concat "" (map writerow rows)) = rows.
Proof.
  induction 1 as [| fs rows [Hne Hc] _ IH]; [reflexivity |].
  cbn [map]. rewrite concat_cons, (read_row fs _ Hne Hc), IH. reflexivity.
Qed.

Lemma substring_all (t : string) : substring 0 (String.length t) t = t.
Proof. induction t as [| c t IH]; simpl; [| rewrite IH]; reflexivity. Qed.

Lemma decode_encoded (text : string) : decode_utf8_sig (BOM ++ text) = text.
Proof.
  unfold decode_utf8_sig.
  replace (prefix BOM (BOM ++ text)) with true
    by (symmetry; apply prefix_app; exists text; reflexivity).
  cbn [BOM append String.length Nat.sub substring]. rewrite Nat.sub_0_r.
  apply substring_all.
Qed.

Lemma lookup_other (c k v : string) (r : record) :
  c <> k -> lookup c ((k, v) :: r) = lookup c r.
Proof.
  intros H. simpl. apply String.eqb_neq in H. rewrite H. reflexivity.
Qed.

(** Pairing the keys of a record with its cells gives the record back. *)
Lemma combine_cells (r : record) :
  NoDup (map fst r) ->
  combine (map fst r) (map na_rep (map (fun c => lookup c r) (map fst r))) = r.
Proof.
  induction r as [| [k v] r IH]; intros Hnd; [reflexivity |].
  cbn [map fst] in *. inversion Hnd as [| ? ? Hk Hr]; subst.
  cbn [combine]. simpl lookup at 1. rewrite String.eqb_refl. cbn [na_rep].
  f_equal. rewrite <- (IH Hr) at 3. f_equal. f_equal.
  apply map_ext_in. intros c Hc. apply lookup_other. intros ->. exact (Hk Hc).
Qed.

Lemma has_key_In (k : string) (l : list string) : has_key k l = true <-> In k l.
Proof.
  unfold has_key. rewrite existsb_exists. split.
  - intros [x [Hx E]]. apply String.eqb_eq in E. subst x. exact Hx.
  - intros H. exists k. split; [exact H | apply String.eqb_refl].
Qed.

Lemma fold_add_new (ks acc : list string) :
  NoDup (acc ++ ks) -> fold_left add_key ks acc = (acc ++ ks)%list.
Proof.
  revert acc; induction ks as [| k ks IH]; intros acc H.
  - rewrite app_nil_r. reflexivity.
  - cbn [fold_left]. unfold add_key at 2.
    destruct (has_key k acc) eqn:E.
    + apply has_key_In in E. apply NoDup_remove_2 in H.
      exfalso. apply H, in_or_app. left. exact E.
    + rewrite IH; rewrite <- app_assoc; [reflexivity | exact H].
Qed.

Lemma fold_add_old (ks cols : list string) :
  (forall k, In k ks -> In k cols) -> fold_left add_key ks cols = cols.
Proof.
  induction ks as [| k ks IH]; intros H; [reflexivity |].
  cbn [fold_left]. unfold add_key at 2.
  rewrite (proj2 (has_key_In k cols)) by (apply H; left; reflexivity).
  apply IH. intros k' Hk'. apply H. right. exact Hk'.
Qed.

(** Records that all carry the keys [ks], each once, make a frame whose
    columns are [ks]. *)
Lemma pd_DataFrame_columns (ks : list string) (raw_data : list record) :
  raw_data <> [] -> NoDup ks -> Forall (fun r => map fst r = ks) raw_data ->
  columns (pd_DataFrame raw_data) = ks.
Proof.
  intros Hne Hnd Hall. destruct raw_data as [| r raw]; [congruence |].
  inversion Hall as [| ? ? Hr Hraw]; subst. cbn [pd_DataFrame columns fold_left].
  rewrite (fold_add_new (map fst r) []) by exact Hnd. cbn [app].
  clear Hne Hall. induction Hraw as [| r' raw Hr' _ IH]; [reflexivity |].
  cbn [fold_left]. rewrite Hr', fold_add_old by auto. exact IH.
Qed.

Lemma set_value_keys (key : string) (f : string -> result string) (r r' : record) :
  set_value key f r = Ok r' -> map fst r' = map fst r.
Proof.
  revert r'; induction r as [| [k v] r IH]; intros r'; cbn [set_value].
  - intros [= <-]. reflexivity.
  - destruct (String.eqb key k).
    + destruct (f v); cbn [rbind]; [| discriminate]. intros [= <-]. reflexivity.
    + destruct (set_value key f r) as [r'' |]; cbn [rbind]; [| discriminate].
      intros [= <-]. cbn [map fst]. rewrite (IH r''); reflexivity.
Qed.

Lemma mapM_keys (key : string) (f : string -> result string) (ks : list string)
  (l l' : list record) :
  mapM (set_value key f) l = Ok l' ->
  Forall (fun r => map fst r = ks) l -> Forall (fun r => map fst r = ks) l'.
Proof.
  revert l'; induction l as [| r l IH]; intros l'; cbn [mapM].
  - intros [= <-] _. constructor.
  - destruct (set_value key f r) as [r' |] eqn:E; cbn [rbind]; [| discriminate].
    destruct (mapM (set_value key f) l) as [l'' |]; cbn [rbind]; [| discriminate].
    intros [= <-] H. inversion H as [| ? ? Hr Hl]; subst.
    constructor; [rewrite (set_value_keys _ _ _ _ E); reflexivity | apply IH; auto].
Qed.

(** The frame the page works on is rectangular when the store sends every
    record with the same keys. *)
Lemma store_frame_rectangular (py : Library) (ks : list string)
  (raw_data : list record) (df : DataFrame) :
  raw_data <> [] -> NoDup ks -> Forall (fun r => map fst r = ks) raw_data ->
  reformat_created_at py (pd_DataFrame raw_data) = Ok df ->
  columns df = ks /\ rectangular df.
Proof.
  intros Hne Hnd Hall H. unfold reformat_created_at in H.
  destruct (getitem (pd_DataFrame raw_data) "created_at"); cbn [rbind] in H;
    [| discriminate].
  destruct (mapM _ (rows (pd_DataFrame raw_data))) as [rs |] eqn:E;
    cbn [rbind] in H; [| discriminate].
  injection H as <-. unfold rectangular.
  pose proof (pd_DataFrame_columns ks raw_data Hne Hnd Hall) as Hc.
  unfold pd_DataFrame in Hc. cbn [columns] in Hc. cbn [columns rows]. rewrite Hc.
  split; [reflexivity |]. split; [exact Hnd |].
  exact (mapM_keys _ _ ks _ _ E Hall).
Qed.

(** A carriage return in a cell is written unquoted and read as a line
    end: the condition of the round trip cannot be dropped. *)
Example export_carriage_return :
  read_export (convert_df {| columns := ["a"]; rows := [[("a", "x" ++ String CR "y")]] |})
  = [["a"]; ["x"]; ["y"]].
Proof. reflexivity. Qed.

(** C5, as the code has it: the exported file starts with the byte order
    mark and, read back, gives the column labels of the frame itself as the
    header row (every fetched column, in the order the records carry them,
    whatever the list of the table view) and then one row per record, in
    order, missing cells empty; for records that carry exactly the columns
    of the frame, pairing the header with each row gives the records back.
    The frame must have a column, and no label or cell may hold a carriage
    return. *)
Theorem export_round_trip (df : DataFrame) :
  columns df <> [] ->
  cr_free df ->
  prefix BOM (convert_df df) = true
  /\ read_export (convert_df df) = columns df :: map (map na_rep) (values df)
  /\ (rectangular df ->
      map (combine (columns df)) (map (map na_rep) (values df)) = rows df).
Proof.
  intros Hcols [Hc Hv]. split; [| split].
  - apply prefix_app. exists (to_csv df). reflexivity.
  - unfold read_export, convert_df, csv_reader, to_csv.
    rewrite decode_encoded, (read_row (columns df) _ Hcols Hc).
    f_equal. rewrite <- map_map. apply read_rows.
    apply Forall_forall. intros fs Hfs. apply in_map_iff in Hfs as [vs [<- Hvs]].
    split.
    + unfold values in Hvs. apply in_map_iff in Hvs as [r [<- _]].
      destruct (columns df); [congruence | discriminate].
    + rewrite Forall_forall in Hv. specialize (Hv vs Hvs).
      apply Forall_forall. intros f Hf. apply in_map_iff in Hf as [v [<- Hin]].
      rewrite Forall_forall in Hv. exact (Hv v Hin).
  - intros [Hnd Hr]. unfold values. rewrite !map_map.
    rewrite <- (map_id (rows df)) at 2. apply map_ext_in. intros r Hin.
    rewrite Forall_forall in Hr. specialize (Hr r Hin).
    rewrite <- Hr in *. apply combine_cells. exact Hnd.
Qed.

Lemma export_round_trip_witness :
  prefix BOM (convert_df exported_frame) = true
  /\ read_export (convert_df exported_frame)
     = columns exported_frame :: map (map na_rep) (values exported_frame)
  /\ map (combine (columns exported_frame)) (map (map na_rep) (values exported_frame))
     = rows exported_frame.
Proof.
  destruct (export_round_trip exported_frame) as [HA [HB HC]].
  - discriminate.
  - split; vm_compute; repeat constructor.
  - split; [exact HA | split; [exact HB | apply HC]].
    split; vm_compute.
    + repeat (constructor; [simpl; intuition discriminate |]). constructor.
    + repeat constructor.
Defined.

(** C5, as the claim words it, fails: the records of the store carry an
    [id] before the eight columns of the table view; the page shows the
    table under the eight columns and offers a file whose header row starts
    with [id]. *)
Lemma export_header_counterexample :
  In (download_of exported_frame "20240501_1000")
    (events (teacher_page python two_submissions))
  /\ (exists data, In (Draw (dataframe display_cols data))
                     (events (teacher_page python two_submissions)))
  /\ exists records,
       read_export (convert_df exported_frame)
       = ("id" :: display_cols) :: records
  /\ "id" :: display_cols <> display_cols.
Proof.
  split; [in_log |]. split.
  - eexists. in_log.
  - eexists. split; [vm_compute; reflexivity | discriminate].
Qed.

(** * Further properties *)

(** ** The frame built from the records *)

Lemma add_keys_spec (ks cols : list string) :
  NoDup cols ->
  NoDup (fold_left add_key ks cols)
  /\ forall k, In k (fold_left add_key ks cols) <-> In k cols \/ In k ks.
Proof.
  revert cols; induction ks as [| k0 ks IH]; intros cols Hnd; cbn [fold_left].
  - split; [exact Hnd | intros k; simpl; tauto].
  - unfold add_key at 2 4. destruct (has_key k0 cols) eqn:E.
    + destruct (IH cols Hnd) as [H1 H2]. split; [exact H1 |].
      intros k. rewrite H2. apply has_key_In in E. simpl.
      split; [tauto | intros [H | [<- | H]]; auto].
    + assert (Hnot : ~ In k0 cols).
      { intros H. apply has_key_In in H. congruence. }
      assert (Hnd' : NoDup (cols ++ [k0])).
      { apply NoDup_app; [exact Hnd | repeat constructor; intros [] |].
        intros x Hx [<- | []]. exact (Hnot Hx). }
      destruct (IH _ Hnd') as [H1 H2]. split; [exact H1 |].
      intros k. rewrite H2, in_app_iff. simpl. tauto.
Qed.

Lemma frame_columns_from (raw_data : list record) (cols : list string) :
  NoDup cols ->
  NoDup (fold_left (fun cols r => fold_left add_key (map fst r) cols) raw_data cols)
  /\ forall k,
       In k (fold_left (fun cols r => fold_left add_key (map fst r) cols) raw_data cols)
       <-> In k cols \/ exists r, In r raw_data /\ In k (map fst r).
Proof.
  revert cols; induction raw_data as [| r raw IH]; intros cols Hnd; cbn [fold_left].
  - split; [exact Hnd |]. intros k. split; [auto | intros [H | [r [[] _]]]; exact H].
  - destruct (add_keys_spec (map fst r) cols Hnd) as [H1 H2].
    destruct (IH _ H1) as [H3 H4]. split; [exact H3 |].
    intros k. rewrite H4, H2. split.
    + intros [[H | H] | [r' [Hr' H]]]; auto.
      * right. exists r. split; [left; reflexivity | exact H].
      * right. exists r'. split; [right; exact Hr' | exact H].
    + intros [H | [r' [[<- | Hr'] H]]]; auto.
      right. exists r'. auto.
Qed.

Lemma pd_DataFrame_keys (raw_data : list record) (k : string) :
  In k (columns (pd_DataFrame raw_data))
  <-> exists r, In r raw_data /\ In k (map fst r).
Proof.
  destruct (frame_columns_from raw_data [] (NoDup_nil _)) as [_ H2].
  cbn [pd_DataFrame columns]. rewrite H2.
  split; [intros [[] | H]; exact H | auto].
Qed.

(** X1: the columns of the frame built from the fetched records are the
    keys of the records, each exactly once. *)
Theorem frame_columns (raw_data : list record) :
  NoDup (columns (pd_DataFrame raw_data))
  /\ forall k, In k (columns (pd_DataFrame raw_data))
               <-> exists r, In r raw_data /\ In k (map fst r).
Proof.
  split.
  - exact (proj1 (frame_columns_from raw_data [] (NoDup_nil _))).
  - intros k. apply pd_DataFrame_keys.
Qed.

Lemma lookup_key (k : string) (r : record) :
  lookup k r <> NaN <-> In k (map fst r).
Proof.
  induction r as [| [k0 v] r IH]; cbn [lookup map fst].
  - split; [congruence | intros []].
  - destruct (String.eqb_spec k k0) as [-> | Hne].
    + split; [intros _; left; reflexivity | discriminate].
    + rewrite IH. split; [intros H; right; exact H | intros [H | H]; [congruence | exact H]].
Qed.


(** ** The conversion of the timestamps *)

Lemma set_value_converted (key : string) (f : string -> result string) (r r' : record) :
  set_value key f r = Ok r' -> converted key f r r'.
Proof.
  revert r'; induction r as [| [k v] r IH]; intros r'; cbn [set_value].
  - intros [= <-]. repeat split.
  - destruct (String.eqb_spec key k) as [-> | Hne].
    + destruct (f v) as [v' |] eqn:E; cbn [rbind]; [| discriminate].
      intros [= <-]. split; [reflexivity |]. split.
      * intros c Hc. apply String.eqb_neq in Hc. cbn [lookup]. rewrite Hc. reflexivity.
      * cbn [lookup]. rewrite String.eqb_refl. exists v'. split; [exact E | reflexivity].
    + destruct (set_value key f r) as [r'' |]; cbn [rbind]; [| discriminate].
      intros [= <-]. destruct (IH r'' eq_refl) as [H1 [H2 H3]]. split; [| split].
      * cbn [map fst]. rewrite H1. reflexivity.
      * intros c Hc. cbn [lookup]. destruct (String.eqb c k); [reflexivity | exact (H2 c Hc)].
      * apply String.eqb_neq in Hne. cbn [lookup]. rewrite Hne. exact H3.
Qed.


Lemma mapM_Forall2 {A B} (f : A -> result B) (l : list A) (l' : list B) :
  mapM f l = Ok l' -> Forall2 (fun x y => f x = Ok y) l l'.
Proof.
  revert l'; induction l as [| x l IH]; intros l'; cbn [mapM].
  - intros [= <-]. constructor.
  - destruct (f x) as [y |] eqn:E; cbn [rbind]; [| discriminate].
    destruct (mapM f l) as [ys |]; cbn [rbind]; [| discriminate].
    intros [= <-]. constructor; auto.
Qed.


Lemma reformat_touches_created_at_only_aux (py : Library) (df df' : DataFrame) :
  reformat_created_at py df = Ok df' ->
  columns df' = columns df
  /\ Forall2 (converted "created_at" (strftime_minute py)) (rows df) (rows df').
Proof.
  unfold reformat_created_at.
  destruct (getitem df "created_at"); cbn [rbind]; [| discriminate].
  destruct (mapM _ (rows df)) as [rs |] eqn:E; cbn [rbind]; [| discriminate].
  intros [= <-]. cbn [columns rows]. split; [reflexivity |].
  apply mapM_Forall2 in E. induction E as [| r r' l l' H _ IH]; constructor; auto.
  apply set_value_converted. exact H.
Qed.

(** X2: the conversion of the timestamps changes nothing but the
    [created_at] cells: the frame keeps its columns and, row by row and in
    order, the keys and every other cell of the record; a [created_at] that
    is text becomes its converted text, a missing one stays missing. *)
Theorem reformat_touches_created_at_only (py : Library) (df df' : DataFrame) :
  reformat_created_at py df = Ok df' ->
  columns df' = columns df
  /\ Forall2 (converted "created_at" (strftime_minute py)) (rows df) (rows df').
Proof. exact (reformat_touches_created_at_only_aux py df df'). Qed.

Lemma reformat_touches_created_at_only_witness :
  columns exported_frame = columns (pd_DataFrame (response_data two_submissions))
  /\ Forall2 (converted "created_at" (strftime_minute python))
       (rows (pd_DataFrame (response_data two_submissions))) (rows exported_frame).
Proof.
  apply (reformat_touches_created_at_only python); reflexivity.
Defined.



(** X4: when records were fetched but none has a [created_at], the run
    draws the heading and the refresh button and ends with
    [KeyError: 'created_at']: no figure, no table, no download, no
    sidebar. *)
Theorem page_without_created_at (py : Library) (s : session) :
  refresh_clicked s = false ->
  response_data s <> [] ->
  (forall r, In r (response_data s) -> lookup "created_at" r = NaN) ->
  teacher_page py s = (page_header, Raise (KeyError "created_at")).
Proof.
  intros Hr Hne Hall. unfold teacher_page. rewrite Hr.
  destruct (response_data s) as [| r raw] eqn:E; [congruence |].
  assert (Hk : has_key "created_at" (columns (pd_DataFrame (r :: raw))) = false).
  { destruct (has_key "created_at" (columns (pd_DataFrame (r :: raw)))) eqn:Hk;
      [| reflexivity].
    apply has_key_In, pd_DataFrame_keys in Hk as [r' [Hr' Hk]].
    apply lookup_key in Hk. elim Hk. apply Hall. exact Hr'. }
  unfold dashboard, reformat_created_at, getitem. rewrite Hk. reflexivity.
Qed.

Lemma page_without_created_at_witness :
  teacher_page python no_created_at = (page_header, Raise (KeyError "created_at")).
Proof.
  apply (page_without_created_at python no_created_at).
  - reflexivity.
  - discriminate.
  - intros r [<- | [<- | []]]; reflexivity.
Defined.

(** ** The figures *)

Lemma unique_from_distinct (seen s : list cell) :
  NoDup s -> (forall x, In x s -> ~ In x seen) -> unique_from seen s = s.
Proof.
  revert seen; induction s as [| x s IH]; intros seen Hnd Hs; [reflexivity |].
  inversion Hnd as [| ? ? Hx Hnd']; subst. cbn [unique_from].
  destruct (in_dec cell_eq_dec x seen) as [Hin | _].
  - elim (Hs x (or_introl eq_refl) Hin).
  - f_equal. apply IH; [exact Hnd' |].
    intros y Hy [<- | Hin]; [exact (Hx Hy) | exact (Hs y (or_intror Hy) Hin)].
Qed.

Lemma unique_from_full (seen s : list cell) :
  List.length (unique_from seen s) = List.length s ->
  NoDup s /\ forall x, In x s -> ~ In x seen.
Proof.
  revert seen; induction s as [| x s IH]; intros seen H.
  - split; [constructor | intros x []].
  - cbn [unique_from] in H. destruct (in_dec cell_eq_dec x seen) as [Hin | Hnin].
    + pose proof (unique_from_length seen s). simpl in H. lia.
    + simpl in H. injection H as H. destruct (IH _ H) as [Hnd Hs]. split.
      * constructor; [| exact Hnd]. intros Hx. apply (Hs x Hx). left. reflexivity.
      * intros y [<- | Hy]; [exact Hnin |].
        intros Hin. apply (Hs y Hy). right. exact Hin.
Qed.

(** X5: the number of students equals the number of submissions exactly
    when no two records carry the same [student_id] (two records without
    one count as the same student). *)
Theorem students_equal_submissions (df : DataFrame) :
  has_key "student_id" (columns df) = true ->
  (total_students df = Ok (total_submissions df)
   <-> NoDup (map (lookup "student_id") (rows df))).
Proof.
  intros Hk. unfold total_students, getitem, total_submissions, len, unique.
  rewrite Hk. cbn [rbind].
  rewrite <- (length_map (lookup "student_id") (rows df)). split.
  - intros [= H]. exact (proj1 (unique_from_full [] _ H)).
  - intros Hnd. rewrite unique_from_distinct; [reflexivity | exact Hnd | intros x _ []].
Qed.

Lemma students_equal_submissions_witness :
  total_students (pd_DataFrame scenario) = Ok (total_submissions (pd_DataFrame scenario))
  <-> NoDup (map (lookup "student_id") (rows (pd_DataFrame scenario))).
Proof.
  apply (students_equal_submissions (pd_DataFrame scenario)). reflexivity.
Defined.

Lemma filter_length_zero {A} (f : A -> bool) (l : list A) :
  List.length (filter f l) = 0%nat <-> forall x, In x l -> f x = false.
Proof.
  induction l as [| x l IH]; cbn [filter].
  - split; [intros _ x [] | reflexivity].
  - destruct (f x) eqn:E; cbn [List.length].
    + split; [discriminate |]. intros H. specialize (H x (or_introl eq_refl)). congruence.
    + rewrite IH. split.
      * intros H y [<- | Hy]; auto.
      * intros H y Hy. apply H. right. exact Hy.
Qed.

Lemma filter_length_all {A} (f : A -> bool) (l : list A) :
  List.length (filter f l) = List.length l <-> forall x, In x l -> f x = true.
Proof.
  induction l as [| x l IH]; cbn [filter].
  - split; [intros _ x [] | reflexivity].
  - pose proof (filter_length_le f l) as Hle.
    destruct (f x) eqn:E; cbn [List.length].
    + split.
      * intros [= H]. intros y [<- | Hy]; [exact E | exact (proj1 IH H y Hy)].
      * intros H. f_equal. apply IH. intros y Hy. apply H. right. exact Hy.
    + split; [lia |]. intros H. specialize (H x (or_introl eq_refl)). congruence.
Qed.

(** X6: the numerator of the rate is a count of records: it lies between 0
    and the number of submissions, is 0 exactly when no [feedback_1] starts
    with [O:] and is the number of submissions exactly when all do. *)
Theorem correct_count_bounds (df : DataFrame) (mask : list (option bool)) :
  q1_correct df = Ok mask ->
  (0 <= sum mask <= Z.of_nat (total_submissions df))%Z
  /\ (sum mask = 0%Z <-> forall r, In r (rows df) -> starts_with_O r = false)
  /\ (sum mask = Z.of_nat (total_submissions df)
      <-> forall r, In r (rows df) -> starts_with_O r = true).
Proof.
  unfold q1_correct, getitem. destruct (has_key "feedback_1" (columns df));
    cbn [rbind]; [| discriminate].
  intros [= <-]. rewrite sum_startswith. unfold total_submissions, len.
  pose proof (filter_length_le starts_with_O (rows df)) as Hle.
  split; [lia |]. split.
  - rewrite <- filter_length_zero. lia.
  - rewrite <- filter_length_all. lia.
Qed.

Lemma correct_count_bounds_witness :
  (0 <= sum [Some true; Some false] <= Z.of_nat (total_submissions (pd_DataFrame scenario)))%Z
  /\ (sum [Some true; Some false] = 0%Z
      <-> forall r, In r (rows (pd_DataFrame scenario)) -> starts_with_O r = false)
  /\ (sum [Some true; Some false] = Z.of_nat (total_submissions (pd_DataFrame scenario))
      <-> forall r, In r (rows (pd_DataFrame scenario)) -> starts_with_O r = true).
Proof.
  apply (correct_count_bounds (pd_DataFrame scenario)). reflexivity.
Defined.

(** X7: for a frame with records the figures are drawn all three or not at
    all: either the frame lacks the [student_id] or the [feedback_1] column
    and the step ends with that [KeyError] before drawing anything, or the
    three figures are drawn and the step completes. *)
Theorem summary_all_or_nothing (df : DataFrame) :
  rows df <> [] ->
  (has_key "student_id" (columns df) = false
   /\ summary df = ([], Raise (KeyError "student_id")))
  \/ (has_key "student_id" (columns df) = true
      /\ has_key "feedback_1" (columns df) = false
      /\ summary df = ([], Raise (KeyError "feedback_1")))
  \/ (exists students,
        total_students df = Ok students
        /\ summary df
           = (figures students (total_submissions df) (rate_of (rows df)), Ok tt)).
Proof.
  intros Hne. unfold summary, total_students, getitem.
  destruct (has_key "student_id" (columns df)) eqn:Hs; cbn [rbind lift bind].
  - right. rewrite (correct_rate_nonempty df Hne). unfold q1_correct, getitem.
    destruct (has_key "feedback_1" (columns df)) eqn:Hf; cbn [rbind bind app].
    + right. eexists. split; [reflexivity |]. rewrite sum_startswith. reflexivity.
    + left. auto.
  - left. auto.
Qed.

Lemma summary_all_or_nothing_witness :
  (has_key "student_id" (columns (pd_DataFrame scenario)) = false
   /\ summary (pd_DataFrame scenario) = ([], Raise (KeyError "student_id")))
  \/ (has_key "student_id" (columns (pd_DataFrame scenario)) = true
      /\ has_key "feedback_1" (columns (pd_DataFrame scenario)) = false
      /\ summary (pd_DataFrame scenario) = ([], Raise (KeyError "feedback_1")))
  \/ (exists students,
        total_students (pd_DataFrame scenario) = Ok students
        /\ summary (pd_DataFrame scenario)
           = (figures students (total_submissions (pd_DataFrame scenario))
                (rate_of (rows (pd_DataFrame scenario))), Ok tt)).
Proof.
  apply (summary_all_or_nothing (pd_DataFrame scenario)). discriminate.
Defined.

(** ** More on the filter *)



Lemma literal_filter_outcome (df : DataFrame) (s : string) :
  s <> "" ->
  any_char re.metachar s = false ->
  has_key "student_id" (columns df) = true ->
  forallb (has_value "student_id") (rows df) = true ->
  outcome (filtered_df python df s)
  = Ok {| columns := columns df; rows := filter (id_contains s) (rows df) |}.
Proof.
  intros Hs Hm Hk Hv. apply String.eqb_neq in Hs.
  rewrite filtered_df_outcome, Hs, Hk, Hv.
  cbn [re_compile python]. rewrite (compile_literal s Hm).
  f_equal. f_equal. apply filter_ext. intros row. unfold matches, id_contains.
  destruct (lookup "student_id" row); [| reflexivity].
  cbn [re_search python]. apply search_literal.
Qed.

Lemma contains_trans (s t x : string) :
  contains s t = true -> contains t x = true -> contains s x = true.
Proof.
  rewrite !contains_app. intros [c [d ->]] [a [b ->]].
  exists (a ++ c), (d ++ b). rewrite !append_assoc. reflexivity.
Qed.

Lemma filter_implied {A} (f g : A -> bool) (l : list A) :
  (forall x, g x = true -> f x = true) -> filter g (filter f l) = filter g l.
Proof.
  intros H. induction l as [| x l IH]; cbn [filter]; [reflexivity |].
  destruct (f x) eqn:Ef; cbn [filter].
  - rewrite IH. reflexivity.
  - destruct (g x) eqn:Eg; [| exact IH]. rewrite (H x Eg) in Ef. discriminate.
Qed.

(** X9: refining a search narrows it.  For search strings without
    metacharacters, when [s] is a substring of [t], filtering with [s] and
    then filtering the result with [t] gives what filtering with [t] alone
    gives. *)
Theorem filter_narrows (df : DataFrame) (s t : string) :
  s <> "" -> t <> "" ->
  any_char re.metachar s = false -> any_char re.metachar t = false ->
  contains s t = true ->
  has_key "student_id" (columns df) = true ->
  forallb (has_value "student_id") (rows df) = true ->
  outcome (d <- filtered_df python df s ;; filtered_df python d t)
  = outcome (filtered_df python df t).
Proof.
  intros Hs Ht Hms Hmt Hst Hk Hv.
  rewrite outcome_bind, (literal_filter_outcome df s Hs Hms Hk Hv).
  rewrite !literal_filter_outcome; try assumption.
  - cbn [columns rows]. f_equal. f_equal. apply filter_implied.
    intros row. unfold id_contains. destruct (lookup "student_id" row); [| discriminate].
    apply contains_trans. exact Hst.
  - cbn [rows]. apply forallb_filter_sub. exact Hv.
Qed.

Lemma filter_narrows_witness :
  outcome (d <- filtered_df python (pd_DataFrame (ids ["2101"; "1102"; "3310"])) "10" ;;
           filtered_df python d "210")
  = outcome (filtered_df python (pd_DataFrame (ids ["2101"; "1102"; "3310"])) "210").
Proof.
  apply (filter_narrows (pd_DataFrame (ids ["2101"; "1102"; "3310"])) "10" "210");
    solve [discriminate | reflexivity].
Defined.

Lemma filter_comm {A} (f g : A -> bool) (l : list A) :
  filter f (filter g l) = filter g (filter f l).
Proof.
  induction l as [| x l IH]; cbn [filter]; [reflexivity |].
  destruct (f x) eqn:Ef, (g x) eqn:Eg; cbn [filter];
    rewrite ?Ef, ?Eg, IH; reflexivity.
Qed.

(** X10: two searches that both are patterns can be applied in either
    order: on a frame where every record has a [student_id], filtering with
    [s] and then with [t] gives the frame that filtering with [t] and then
    with [s] gives, for any regular-expression engine. *)
Theorem filter_commutes (py : Library) (df : DataFrame) (s t : string)
  (rs rt : regex py) :
  s <> "" -> t <> "" ->
  re_compile py s = Ok rs -> re_compile py t = Ok rt ->
  has_key "student_id" (columns df) = true ->
  forallb (has_value "student_id") (rows df) = true ->
  outcome (d <- filtered_df py df s ;; filtered_df py d t)
  = outcome (d <- filtered_df py df t ;; filtered_df py d s)
  /\ outcome (d <- filtered_df py df s ;; filtered_df py d t)
     = Ok {| columns := columns df;
             rows := filter (fun row => matches py rs row && matches py rt row) (rows df) |}.
Proof.
  intros Hs Ht Hrs Hrt Hk Hv.
  apply String.eqb_neq in Hs. apply String.eqb_neq in Ht.
  rewrite !outcome_bind, !filtered_df_outcome, Hs, Ht, Hk, Hrs, Hrt, Hv.
  rewrite !filtered_df_outcome, Hs, Ht. cbn [columns rows].
  rewrite Hk, Hrs, Hrt, !forallb_filter_sub by exact Hv. split.
  - f_equal. f_equal. apply filter_comm.
  - f_equal. f_equal. clear. induction (rows df) as [| x l IH]; cbn [filter]; [reflexivity |].
    destruct (matches py rs x); cbn [filter andb]; [| exact IH].
    destruct (matches py rt x); rewrite IH; reflexivity.
Qed.

Lemma filter_commutes_witness :
  outcome (d <- filtered_df python (pd_DataFrame (ids ["2101"; "1102"; "3310"])) "1.0" ;;
           filtered_df python d "2")
  = outcome (d <- filtered_df python (pd_DataFrame (ids ["2101"; "1102"; "3310"])) "2" ;;
             filtered_df python d "1.0")
  /\ outcome (d <- filtered_df python (pd_DataFrame (ids ["2101"; "1102"; "3310"])) "1.0" ;;
              filtered_df python d "2")
     = Ok {| columns := columns (pd_DataFrame (ids ["2101"; "1102"; "3310"]));
             rows := filter (fun row => matches python [re.Lit "1"%char; re.Dot; re.Lit "0"%char] row
                                        && matches python [re.Lit "2"%char] row)
                       (rows (pd_DataFrame (ids ["2101"; "1102"; "3310"]))) |}.
Proof.
  apply (filter_commutes python (pd_DataFrame (ids ["2101"; "1102"; "3310"])) "1.0" "2");
    solve [discriminate | reflexivity].
Defined.

(** ** What the page shows *)

Ltac never_auto :=
  unfold summary, correct_rate, true_divide, detail, feedback_box, export,
    filtered_df, str_contains, with_, draw, draw_in, ret, raise;
  repeat first
    [ apply never_pure
    | exact (never_pure _ (Ok tt))
    | apply never_emit; reflexivity
    | apply never_bind; [| intros ? ?]
    | apply never_for_each; intros ? ?
    | match goal with
      | |- never _ (if ?b then _ else _) => destruct b
      | |- never _ ([], _) => intros ? []
      end ].

Lemma table_not_in_summary (df : DataFrame) : never is_table (summary df).
Proof. never_auto. Qed.

Lemma table_not_in_filter (py : Library) (df : DataFrame) (s : string) :
  never is_table (filtered_df py df s).
Proof. never_auto. Qed.

Lemma table_not_after (df fd : DataFrame) (now : string) :
  never is_table (draw (subheader "📝 학생별 심층 확인") ;;
                  for_each (rows fd) (detail fd) ;; export df now).
Proof. never_auto. Qed.

Lemma metric_not_in_filter (py : Library) (df : DataFrame) (s : string) :
  never is_metric (filtered_df py df s).
Proof. never_auto. Qed.

Lemma metric_not_after (py : Library) (df : DataFrame) (q now : string) :
  never is_metric
    (draw divider ;;
     draw (subheader "🔍 상세 답안 조회") ;;
     draw (text_input "학번으로 검색" q) ;;
     filtered_df <- filtered_df py df q ;;
     table <- lift (getitem_cols filtered_df display_cols) ;;
     draw (dataframe (columns table) (values table)) ;;
     draw (subheader "📝 학생별 심층 확인") ;;
     for_each (rows filtered_df) (detail filtered_df) ;;
     export df now).
Proof.
  do 3 (apply never_bind; [apply never_emit; reflexivity | intros _ _]).
  apply never_bind; [apply metric_not_in_filter | intros fd _].
  never_auto.
Qed.

Lemma getitem_cols_ok (df table : DataFrame) (keys : list string) :
  getitem_cols df keys = Ok table -> table = {| columns := keys; rows := rows df |}.
Proof.
  unfold getitem_cols. destruct (find _ keys); [discriminate |].
  intros [= <-]. reflexivity.
Qed.

(** X11: whatever table a run draws shows the eight columns of the table
    view, in that order, and one row per record of the filtered frame, in
    order, each holding the cells of that record under the eight columns. *)
Theorem table_view (py : Library) (s : session) (cols : list string)
  (data : list (list cell)) :
  In (Draw (dataframe cols data)) (events (teacher_page py s)) ->
  cols = display_cols
  /\ exists df fd,
       reformat_created_at py (pd_DataFrame (response_data s)) = Ok df
       /\ outcome (filtered_df py df (search_id s)) = Ok fd
       /\ data = map (fun r => map (fun c => lookup c r) display_cols) (rows fd).
Proof.
  intros He.
  assert (Hp : is_table (Draw (dataframe cols data)) = true) by reflexivity.
  unfold teacher_page, draw, draw_in in He.
  do 3 (apply (in_bind_skip is_table) in He as [_ [_ He]];
        [| apply never_emit; reflexivity | exact Hp]).
  apply (in_bind_skip is_table) in He as [_ [_ He]];
    [| destruct (refresh_clicked s); intros ev [] | exact Hp].
  apply in_events_bind in He as [He | [_ [_ He]]].
  2: { simpl in He. destruct He as [He | [He | []]]; discriminate. }
  destruct (response_data s) as [| r raw] eqn:E.
  { destruct He as [He | []]. discriminate. }
  unfold dashboard in He.
  apply (in_bind_skip is_table) in He as [df [Hdf He]];
    [| apply never_pure | exact Hp].
  apply (in_bind_skip is_table) in He as [_ [_ He]];
    [| apply table_not_in_summary | exact Hp].
  unfold draw in He.
  do 3 (apply (in_bind_skip is_table) in He as [_ [_ He]];
        [| apply never_emit; reflexivity | exact Hp]).
  apply (in_bind_skip is_table) in He as [fd [Hfd He]];
    [| apply table_not_in_filter | exact Hp].
  apply (in_bind_skip is_table) in He as [table [Ht He]];
    [| apply never_pure | exact Hp].
  apply getitem_cols_ok in Ht. subst table.
  apply in_events_bind in He as [He | [_ [_ He]]].
  - destruct He as [[= <- <-] | []]. split; [reflexivity |].
    exists df, fd. split; [exact Hdf | split; [exact Hfd | reflexivity]].
  - apply (table_not_after df fd (now s)) in He. discriminate.
Qed.

Lemma table_view_witness :
  display_cols = display_cols
  /\ exists df fd,
       reformat_created_at python (pd_DataFrame (response_data two_submissions)) = Ok df
       /\ outcome (filtered_df python df (search_id two_submissions)) = Ok fd
       /\ map (fun r => map (fun c => lookup c r) display_cols) (rows exported_frame)
          = map (fun r => map (fun c => lookup c r) display_cols) (rows fd).
Proof.
  apply (table_view python two_submissions). in_log.
Defined.

Lemma in_bind_left {A B} (m : run A) (k : A -> run B) (e : event) :
  In e (events m) -> In e (events (bind m k)).
Proof. intros H. apply in_events_bind. left. exact H. Qed.

Lemma in_bind_right {A B} (m : run A) (k : A -> run B) (a : A) (e : event) :
  outcome m = Ok a -> In e (events (k a)) -> In e (events (bind m k)).
Proof. intros Ha H. apply in_events_bind. right. exists a. auto. Qed.

(** Where the figures of a run come from. *)
Lemma metric_in_page (py : Library) (s : session) (e : event) :
  is_metric e = true ->
  (In e (events (teacher_page py s)) <->
   refresh_clicked s = false /\ response_data s <> []
   /\ exists df, reformat_created_at py (pd_DataFrame (response_data s)) = Ok df
                 /\ In e (events (summary df))).
Proof.
  intros Hp. split.
  - intros He. unfold teacher_page, draw, draw_in in He.
    do 3 (apply (in_bind_skip is_metric) in He as [_ [_ He]];
          [| apply never_emit; reflexivity | exact Hp]).
    apply (in_bind_skip is_metric) in He as [u [Hr He]];
      [| destruct (refresh_clicked s); intros ev [] | exact Hp].
    assert (Hrf : refresh_clicked s = false)
      by (destruct (refresh_clicked s); [discriminate | reflexivity]).
    split; [exact Hrf |].
    apply in_events_bind in He as [He | [_ [_ He]]].
    2: { simpl in He. destruct He as [<- | [<- | []]]; discriminate. }
    destruct (response_data s) as [| r raw] eqn:E.
    { destruct He as [<- | []]. discriminate. }
    split; [discriminate |].
    unfold dashboard in He.
    apply (in_bind_skip is_metric) in He as [df [Hdf He]];
      [| apply never_pure | exact Hp].
    exists df. split; [exact Hdf |].
    apply in_events_bind in He as [He | [_ [_ He]]]; [exact He |].
    apply (metric_not_after py df (search_id s) (now s)) in He. congruence.
  - intros [Hr [Hne [df [Hdf He]]]]. unfold teacher_page. rewrite Hr.
    do 4 (apply in_bind_right with (a := tt); [reflexivity |]).
    apply in_bind_left.
    destruct (response_data s) as [| r raw]; [congruence |].
    unfold dashboard. apply in_bind_right with (a := df); [exact Hdf |].
    apply in_bind_left. exact He.
Qed.

(** X12: the three figures do not depend on the search string: a figure a
    run shows is shown by every run that differs only in the search
    string. *)
Theorem figures_ignore_search (py : Library) (s : session) (q1 q2 : string)
  (e : event) :
  is_metric e = true ->
  In e (events (teacher_page py (with_search s q1))) ->
  In e (events (teacher_page py (with_search s q2))).
Proof.
  intros Hp H. apply (metric_in_page py _ e Hp) in H.
  apply (metric_in_page py _ e Hp). exact H.
Qed.

Lemma figures_ignore_search_witness :
  In (DrawIn (column 3) (metric "문항1 정답률" "0.0%"))
    (events (teacher_page python (with_search two_submissions "2"))).
Proof.
  apply (figures_ignore_search python two_submissions "" "2"); [reflexivity | in_log].
Defined.

(** ** The detail blocks *)

Lemma outcome_bind_ok {A B} (m : run A) (k : A -> run B) (b : B) :
  outcome (bind m k) = Ok b -> exists a, outcome m = Ok a /\ outcome (k a) = Ok b.
Proof.
  rewrite outcome_bind. destruct (outcome m) as [a | e]; [| discriminate].
  intros H. exists a. auto.
Qed.

Lemma labels_none {A} (m : run A) :
  never is_expander m -> expander_labels (events m) = [].
Proof.
  unfold never, expander_labels. induction (events m) as [| e l IH]; intros H.
  - reflexivity.
  - cbn [flat_map]. rewrite IH by (intros e' He'; apply H; right; exact He').
    specialize (H e (or_introl eq_refl)).
    destruct e as [| | [| |] | |]; try reflexivity. discriminate.
Qed.

Lemma labels_bind {A B} (m : run A) (k : A -> run B) (a : A) :
  outcome m = Ok a ->
  expander_labels (events (bind m k))
  = (expander_labels (events m) ++ expander_labels (events (k a)))%list.
Proof.
  intros Ha. rewrite events_bind, Ha. apply flat_map_app.
Qed.

Lemma labels_skip {A B} (m : run A) (k : A -> run B) (a : A) :
  never is_expander m -> outcome m = Ok a ->
  expander_labels (events (bind m k)) = expander_labels (events (k a)).
Proof.
  intros Hn Ha. rewrite (labels_bind m k a Ha), (labels_none m Hn). reflexivity.
Qed.

Lemma expander_not_in_summary (df : DataFrame) : never is_expander (summary df).
Proof. never_auto. Qed.

Lemma expander_not_in_filter (py : Library) (df : DataFrame) (s : string) :
  never is_expander (filtered_df py df s).
Proof. never_auto. Qed.

Lemma expander_not_in_export (df : DataFrame) (now : string) :
  never is_expander (export df now).
Proof. never_auto. Qed.

Lemma labels_detail (df : DataFrame) (row : record) :
  outcome (detail df row) = Ok tt ->
  expander_labels (events (detail df row)) = [expander_label row].
Proof.
  unfold detail, row_getitem.
  destruct (has_key "student_id" (columns df)); [| discriminate].
  destruct (has_key "created_at" (columns df)); [| discriminate].
  intros _.
  rewrite (labels_skip _ _ (lookup "student_id" row) (never_pure _ _) eq_refl).
  rewrite (labels_skip _ _ (lookup "created_at" row) (never_pure _ _) eq_refl).
  unfold with_ at 1.
  rewrite (labels_bind (emit (With (expander _))) _ tt eq_refl).
  cbn [emit events fst expander_labels flat_map app].
  rewrite labels_none; [reflexivity |].
  destruct (has_key "answer_1" (columns df)), (has_key "answer_2" (columns df)),
    (has_key "answer_3" (columns df)), (has_key "feedback_1" (columns df)),
    (has_key "feedback_2" (columns df)), (has_key "feedback_3" (columns df));
    never_auto.
Qed.

Lemma labels_for_each (df : DataFrame) (l : list record) :
  outcome (for_each l (detail df)) = Ok tt ->
  expander_labels (events (for_each l (detail df))) = map expander_label l.
Proof.
  induction l as [| row l IH]; intros H; [reflexivity |].
  cbn [for_each] in *. apply outcome_bind_ok in H as [[] [H1 H2]].
  rewrite (labels_bind _ _ tt H1), (labels_detail df row H1), (IH H2). reflexivity.
Qed.

(** X13: a run that completes on a non-empty record set opens one expander
    per record of the filtered frame, in order, labelled with the
    [student_id] and the converted [created_at] of that record. *)
Theorem one_expander_per_record (py : Library) (s : session) :
  response_data s <> [] ->
  outcome (teacher_page py s) = Ok tt ->
  exists df fd,
    reformat_created_at py (pd_DataFrame (response_data s)) = Ok df
    /\ outcome (filtered_df py df (search_id s)) = Ok fd
    /\ expander_labels (events (teacher_page py s)) = map expander_label (rows fd).
Proof.
  intros Hne H. unfold teacher_page, draw, draw_in in *.
  do 3 (apply outcome_bind_ok in H as [[] [_ H]];
        rewrite (labels_skip _ _ tt) by (reflexivity || (apply never_emit; reflexivity))).
  apply outcome_bind_ok in H as [[] [Hr H]].
  rewrite (labels_skip _ _ tt);
    [| destruct (refresh_clicked s); intros ev [] | exact Hr].
  apply outcome_bind_ok in H as [[] [H _]].
  rewrite (labels_bind _ _ tt H).
  rewrite (labels_none (emit _ ;; emit _)) by never_auto. rewrite app_nil_r.
  destruct (response_data s) as [| r raw] eqn:E; [congruence |].
  unfold dashboard in *.
  apply outcome_bind_ok in H as [df [Hdf H]]. exists df.
  rewrite (labels_skip _ _ df) by (apply never_pure || exact Hdf).
  apply outcome_bind_ok in H as [[] [Hs H]].
  rewrite (labels_skip _ _ tt) by (apply expander_not_in_summary || exact Hs).
  unfold draw in *.
  do 3 (apply outcome_bind_ok in H as [[] [_ H]];
        rewrite (labels_skip _ _ tt) by (reflexivity || (apply never_emit; reflexivity))).
  apply outcome_bind_ok in H as [fd [Hfd H]]. exists fd.
  rewrite (labels_skip _ _ fd) by (apply expander_not_in_filter || exact Hfd).
  apply outcome_bind_ok in H as [table [Ht H]].
  rewrite (labels_skip _ _ table) by (apply never_pure || exact Ht).
  do 2 (apply outcome_bind_ok in H as [[] [_ H]];
        rewrite (labels_skip _ _ tt) by (reflexivity || (apply never_emit; reflexivity))).
  apply outcome_bind_ok in H as [[] [Hd _]].
  rewrite (labels_bind _ _ tt Hd), (labels_for_each fd _ Hd).
  rewrite (labels_none _ (expander_not_in_export df (now s))), app_nil_r.
  split; [exact Hdf | split; [exact Hfd | reflexivity]].
Qed.

Lemma one_expander_per_record_witness :
  exists df fd,
    reformat_created_at python (pd_DataFrame (response_data two_submissions)) = Ok df
    /\ outcome (filtered_df python df (search_id two_submissions)) = Ok fd
    /\ expander_labels (events (teacher_page python two_submissions))
       = map expander_label (rows fd).
Proof.
  apply (one_expander_per_record python two_submissions); [discriminate | reflexivity].
Defined.

(** ** Runs that complete *)
















(** X15: a run that completes on a non-empty record set offers the
    download of the whole converted frame, under the file name built from
    the time of the run. *)
Theorem completed_run_offers_download (py : Library) (s : session) :
  response_data s <> [] ->
  outcome (teacher_page py s) = Ok tt ->
  exists df,
    reformat_created_at py (pd_DataFrame (response_data s)) = Ok df
    /\ In (download_of df (now s)) (events (teacher_page py s)).
Proof.
  intros Hne H. unfold teacher_page, draw, draw_in in *.
  do 3 (apply outcome_bind_ok in H as [[] [_ H]]).
  apply outcome_bind_ok in H as [[] [Hr H]].
  apply outcome_bind_ok in H as [[] [H _]].
  destruct (response_data s) as [| r raw] eqn:E; [congruence |].
  unfold dashboard in H.
  apply outcome_bind_ok in H as [df [Hdf H]]. exists df. split; [exact Hdf |].
  do 3 (apply in_bind_right with (a := tt); [reflexivity |]).
  apply in_bind_right with (a := tt); [exact Hr |].
  apply in_bind_left. unfold dashboard.
  apply in_bind_right with (a := df); [exact Hdf |].
  apply outcome_bind_ok in H as [[] [Hs H]].
  apply in_bind_right with (a := tt); [exact Hs |].
  unfold draw in *.
  do 3 (apply outcome_bind_ok in H as [[] [_ H]];
        apply in_bind_right with (a := tt); [reflexivity |]).
  apply outcome_bind_ok in H as [fd [Hfd H]].
  apply in_bind_right with (a := fd); [exact Hfd |].
  apply outcome_bind_ok in H as [table [Ht H]].
  apply in_bind_right with (a := table); [exact Ht |].
  do 2 (apply outcome_bind_ok in H as [[] [_ H]];
        apply in_bind_right with (a := tt); [reflexivity |]).
  apply outcome_bind_ok in H as [[] [Hd _]].
  apply in_bind_right with (a := tt); [exact Hd |].
  simpl. right. right. left. reflexivity.
Qed.

Lemma completed_run_offers_download_witness :
  exists df,
    reformat_created_at python (pd_DataFrame (response_data two_submissions)) = Ok df
    /\ In (download_of df (now two_submissions))
         (events (teacher_page python two_submissions)).
Proof.
  apply (completed_run_offers_download python two_submissions);
    [discriminate | reflexivity].
Defined.
